(** * google-docs-mcp-server: the tab layer of [server.py]

    A shallow embedding of the tab helpers and of the tab-scoped tools of
    [src/google_docs_mcp_server/server.py], and the properties its
    specification states about them.

    Conventions of the embedding.
    - A Python [str] is a [string]: the UTF-8 encoding of its code points.
      Equality, concatenation, [join], [rstrip] of the newline and the
      substring test act on encodings as they act on code points; [len]
      counts the bytes that start a code point; [str.lower] is CPython's
      Unicode case mapping and is a parameter of the development.
    - The objects the Docs API returns (document, tab, body, paragraph ...)
      are records; a key read with [d.get(k, default)] is an [option] field
      and the read is [default_to default (k d)]; a list valued key that is
      absent is the empty list.
    - The edit requests of [batch_update] are caller-defined JSON, embedded
      as a generic value type whose objects are insertion-ordered
      association lists, as Python dicts are.
    - The tools talk to the Docs service: they are computations in a small
      monad that logs each service call and stops at the first error. *)

From Stdlib Require Import List String Ascii ZArith Bool Arith Lia.
Import ListNotations.
Open Scope string_scope.
Open Scope list_scope.

Set Implicit Arguments.

(** ** Python builtins used by the server *)

Definition default_to {A : Type} (d : A) (o : option A) : A :=
  match o with
  | Some a => a
  | None => d
  end.

(** The newline character and the one character string ["\n"]. *)
Definition newline : ascii := "010"%char.
Definition nl : string := String newline EmptyString.

(** Truth value of a [str]: false exactly for the empty string. *)
Definition truthy (s : string) : bool :=
  match s with
  | EmptyString => false
  | String _ _ => true
  end.

(** [s * n]. *)
Fixpoint str_repeat (s : string) (n : nat) : string :=
  match n with
  | O => ""
  | S n' => (s ++ str_repeat s n')%string
  end.

(** [s.rstrip("\n")]: [s] without its trailing newline characters. *)
Fixpoint rstrip_nl (s : string) : string :=
  match s with
  | EmptyString => EmptyString
  | String c rest =>
      match rstrip_nl rest with
      | EmptyString => if Ascii.eqb c newline then EmptyString else String c EmptyString
      | String _ _ as kept => String c kept
      end
  end.

(** [len(s)]: the number of code points, that is of bytes outside the
    continuation range [0x80..0xBF]. *)
Fixpoint py_len (s : string) : Z :=
  match s with
  | EmptyString => 0
  | String c rest =>
      let n := nat_of_ascii c in
      ((if (128 <=? n)%nat && (n <? 192)%nat then 0 else 1) + py_len rest)%Z
  end.

(** [sub in s] on strings. *)
Definition is_substring (sub s : string) : bool :=
  match String.index 0 sub s with
  | Some _ => true
  | None => false
  end.

(** The ASCII part of [str.lower], used to run the model on examples. *)
Definition ascii_lower (c : ascii) : ascii :=
  let n := nat_of_ascii c in
  if (65 <=? n)%nat && (n <=? 90)%nat then ascii_of_nat (n + 32) else c.

Fixpoint str_lower (s : string) : string :=
  match s with
  | EmptyString => EmptyString
  | String c rest => String (ascii_lower c) (str_lower rest)
  end.

(** ** The document model (Docs API objects the server reads) *)

Record TextRun := mkTextRun {
  tr_content : option string
}.

Record ParagraphElement := mkParagraphElement {
  textRun : option TextRun
}.

Record ParagraphStyle := mkParagraphStyle {
  namedStyleType : option string
}.

Record Paragraph := mkParagraph {
  paragraphStyle : option ParagraphStyle;
  elements : list ParagraphElement
}.

(** A structural element; tables, section breaks and the like have no
    ["paragraph"] key. *)
Record StructuralElement := mkStructuralElement {
  paragraph : option Paragraph;
  endIndex : option Z
}.

Record Body := mkBody {
  content : list StructuralElement
}.

Record TabProperties := mkTabProperties {
  tabId : option string;
  tp_title : option string;
  tp_index : option Z
}.

Record DocumentTab := mkDocumentTab {
  dt_body : option Body
}.

#[warnings="-register-all"]
Inductive Tab := mkTab {
  tabProperties : option TabProperties;
  childTabs : list Tab;
  documentTab : option DocumentTab
}.

(** Induction on a tab with the property known for all its children. *)
Fixpoint Tab_forest_ind (P : Tab -> Prop)
         (step : forall props children dt,
             Forall P children -> P (mkTab props children dt))
         (tab : Tab) : P tab :=
  match tab with
  | mkTab props children dt =>
      step props children dt
           ((fix all (cs : list Tab) : Forall P cs :=
               match cs with
               | [] => Forall_nil P
               | c :: cs' => Forall_cons c (@Tab_forest_ind P step c) (all cs')
               end) children)
  end.

Record Document := mkDocument {
  doc_title : option string;
  doc_documentId : option string;
  doc_body : option Body;
  tabs : list Tab
}.

(** The dict literal [{}] at each type. *)
Definition empty_style : ParagraphStyle := mkParagraphStyle None.
Definition empty_props : TabProperties := mkTabProperties None None None.
Definition empty_body : Body := mkBody [].
Definition empty_documentTab : DocumentTab := mkDocumentTab None.

(** ** [_extract_text_from_body] *)

Definition heading_map : list (string * string) :=
  [ ("HEADING_1", "# ");
    ("HEADING_2", "## ");
    ("HEADING_3", "### ");
    ("HEADING_4", "#### ");
    ("HEADING_5", "##### ");
    ("HEADING_6", "###### ");
    ("TITLE", "# ");
    ("SUBTITLE", "## ") ].

(** [d.get(k, default)] on a dict of strings. *)
Fixpoint map_get (d : list (string * string)) (k : string) (default : string) : string :=
  match d with
  | [] => default
  | (k', v) :: d' => if String.eqb k' k then v else map_get d' k default
  end.

(** The inner loop: the contents of the text runs of a paragraph.  An
    element without a ["textRun"] key is skipped; a text run that is the
    empty dict is skipped by [if text_run] in the source and adds the
    empty string here, which leaves the joined line the same. *)
Definition collect_line_parts (para : Paragraph) : list string :=
  fold_left
    (fun line_parts elem =>
       match textRun elem with
       | Some text_run => line_parts ++ [default_to "" (tr_content text_run)]
       | None => line_parts
       end)
    (elements para) [].

(** One turn of the outer loop: what [element] appends to [parts]. *)
Definition extract_step (parts : list string) (element : StructuralElement) : list string :=
  match paragraph element with
  | None => parts
  | Some para =>
      let style := default_to empty_style (paragraphStyle para) in
      let named_style := default_to "NORMAL_TEXT" (namedStyleType style) in
      let line := String.concat "" (collect_line_parts para) in
      let prefix := map_get heading_map named_style "" in
      let line_stripped := rstrip_nl line in
      if truthy line_stripped then parts ++ [(prefix ++ line_stripped)%string]
      else if negb (truthy prefix) then parts ++ [""]
      else parts
  end.

Definition _extract_text_from_body (body : Body) : string :=
  let parts := fold_left extract_step (content body) [] in
  String.concat nl parts.

(** ** [_body_end_index] *)

Definition _body_end_index (body : Body) : Z :=
  match rev (content body) with
  | [] => 1
  | last :: _ => default_to 1%Z (endIndex last) - 1
  end.

(** ** [_flatten_tabs] *)

Record TabEntry := mkTabEntry {
  e_tabId : string;
  e_title : string;
  e_index : Z;
  e_depth : nat;
  e_tab : Tab
}.

(** The dict appended for [tab] at [depth]. *)
Definition tab_entry (depth : nat) (tab : Tab) : TabEntry :=
  let props := default_to empty_props (tabProperties tab) in
  mkTabEntry (default_to "" (tabId props))
             (default_to "" (tp_title props))
             (default_to 0%Z (tp_index props))
             depth
             tab.

(** The body of the loop over [tabs] for one [tab]: its entry, then for
    each child the result of [_flatten_tabs([child], depth + 1)]. *)
Fixpoint flatten_tab (depth : nat) (tab : Tab) : list TabEntry :=
  tab_entry depth tab ::
  (fix over_children (children : list Tab) : list TabEntry :=
     match children with
     | [] => []
     | child :: rest => flatten_tab (S depth) child ++ over_children rest
     end) (childTabs tab).

Definition _flatten_tabs (tabs : list Tab) (depth : nat) : list TabEntry :=
  fold_left (fun result tab => result ++ flatten_tab depth tab) tabs [].

(** ** JSON values: the edit requests and the values the tools return *)

#[warnings="-register-all"]
Inductive json :=
| JNull
| JBool (b : bool)
| JInt (n : Z)
| JFloat (mantissa exponent : Z)
| JStr (s : string)
| JArr (items : list json)
| JObj (fields : list (string * json)).

(** A Python dict with string keys, in insertion order. *)
Definition dict := list (string * json).

(** [d.get(k)]. *)
Fixpoint dict_get (k : string) (d : dict) : option json :=
  match d with
  | [] => None
  | (k', v) :: d' => if String.eqb k' k then Some v else dict_get k d'
  end.

(** [k in d]. *)
Definition dict_has (k : string) (d : dict) : bool :=
  match dict_get k d with
  | Some _ => true
  | None => false
  end.

(** [d[k] = v]: replaces the value of a key that is present and keeps its
    place, appends a key that is absent. *)
Fixpoint dict_set (k : string) (v : json) (d : dict) : dict :=
  match d with
  | [] => [(k, v)]
  | (k', v') :: d' =>
      if String.eqb k' k then (k, v) :: d' else (k', v') :: dict_set k v d'
  end.

(** ** Errors *)

Inductive error :=
| TabNotFound (tab_id tab_title : string)
| TypeError
| RemoteError (diagnostic : string).

Inductive result (A : Type) :=
| Ok (a : A)
| Raise (e : error).

Arguments Ok {A} a.
Arguments Raise {A} e.

Definition result_bind {A B : Type} (r : result A) (k : A -> result B) : result B :=
  match r with
  | Ok a => k a
  | Raise e => Raise e
  end.

(** A loop that rebuilds a list and stops at the first exception. *)
Fixpoint result_map {A B : Type} (f : A -> result B) (l : list A) : result (list B) :=
  match l with
  | [] => Ok []
  | a :: l' =>
      result_bind (f a) (fun b =>
      result_bind (result_map f l') (fun bs => Ok (b :: bs)))
  end.

(** ** The scope rewrite of [batch_update] (lines 425-436)

    The source writes the tab id into the request dicts in place.  The
    requests are the freshly deserialised arguments of the call, so no two
    of them share an object, and the rewritten list is what is sent: the
    embedding returns the rewritten value.  An exception leaves the loop
    before anything is sent. *)

(** ["tabId" in v] for an arbitrary value [v]: key membership on a dict,
    substring test on a str, element membership on a list, and a
    [TypeError] on values that are not containers. *)
Definition contains_tabId (v : json) : result bool :=
  match v with
  | JObj d => Ok (dict_has "tabId" d)
  | JStr s => Ok (is_substring "tabId" s)
  | JArr items =>
      Ok (existsb (fun x => match x with JStr s => String.eqb s "tabId" | _ => false end) items)
  | JNull | JBool _ | JInt _ | JFloat _ _ => Raise TypeError
  end.

(** One turn of the loop over [("location", "range", "insertionLocation")]:
    [if key in op_body and "tabId" not in op_body[key]:
       op_body[key]["tabId"] = resolved_tab_id].
    Item assignment with a string key is a [TypeError] on a str or a list. *)
Definition inject_key (resolved_tab_id : string) (op_body : dict) (key : string) : result dict :=
  match dict_get key op_body with
  | None => Ok op_body
  | Some v =>
      result_bind (contains_tabId v) (fun has_tab =>
        if has_tab then Ok op_body
        else match v with
             | JObj target => Ok (dict_set key (JObj (dict_set "tabId" (JStr resolved_tab_id) target)) op_body)
             | _ => Raise TypeError
             end)
  end.

Definition scope_keys : list string := ["location"; "range"; "insertionLocation"].

Fixpoint inject_keys (resolved_tab_id : string) (op_body : dict) (keys : list string) : result dict :=
  match keys with
  | [] => Ok op_body
  | key :: rest =>
      result_bind (inject_key resolved_tab_id op_body key) (fun op_body' =>
        inject_keys resolved_tab_id op_body' rest)
  end.

(** [if "containsText" in op_body and "tabsCriteria" not in op_body: ...]. *)
Definition inject_criteria (resolved_tab_id : string) (op_body : dict) : dict :=
  if dict_has "containsText" op_body && negb (dict_has "tabsCriteria" op_body)
  then dict_set "tabsCriteria" (JObj [("tabIds", JArr [JStr resolved_tab_id])]) op_body
  else op_body.

(** The body of [for op_name, op_body in req.items()]. *)
Definition scope_op (resolved_tab_id : string) (item : string * json) : result (string * json) :=
  let (op_name, op_body) := item in
  match op_body with
  | JObj body =>
      result_bind (inject_keys resolved_tab_id body scope_keys) (fun body' =>
        Ok (op_name, JObj (inject_criteria resolved_tab_id body')))
  | _ => Ok (op_name, op_body)
  end.

Definition scope_request (resolved_tab_id : string) (req : dict) : result dict :=
  result_map (scope_op resolved_tab_id) req.

Definition scope_requests (resolved_tab_id : string) (requests : list dict) : result (list dict) :=
  if truthy resolved_tab_id
  then result_map (scope_request resolved_tab_id) requests
  else Ok requests.

(** ** The Docs service and the monad of the tools *)

Record ReplaceAllTextReply := mkReplaceAllTextReply {
  occurrencesChanged : option Z
}.

Record Reply := mkReply {
  replaceAllText : option ReplaceAllTextReply
}.

Record BatchUpdateResponse := mkBatchUpdateResponse {
  replies : option (list Reply);
  resp_documentId : option string
}.

(** What a call to the remote service gives back: a value, or a failure
    with the collaborator's diagnostic. *)
Inductive remote (A : Type) :=
| Returned (a : A)
| Failed (diagnostic : string).

Arguments Returned {A} a.
Arguments Failed {A} diagnostic.

(** [docs.documents()]: the two methods the tools execute. *)
Record Service := mkService {
  documents_get : string -> remote Document;
  documents_batchUpdate : string -> list dict -> remote BatchUpdateResponse
}.

Inductive call :=
| GetDocument (document_id : string)
| BatchUpdate (document_id : string) (requests : list dict).

(** A tool reads the service, appends to the log of calls made so far and
    ends with a value or an exception. *)
Definition tool (A : Type) : Type := Service -> list call -> list call * result A.

Definition ret {A : Type} (a : A) : tool A :=
  fun _ log => (log, Ok a).

Definition bind {A B : Type} (m : tool A) (k : A -> tool B) : tool B :=
  fun docs log =>
    match m docs log with
    | (log', Ok a) => k a docs log'
    | (log', Raise e) => (log', Raise e)
    end.

Definition lift {A : Type} (r : result A) : tool A :=
  fun _ log => (log, r).

Definition execute {A : Type} (c : call) (answer : Service -> remote A) : tool A :=
  fun docs log =>
    (log ++ [c],
     match answer docs with
     | Returned a => Ok a
     | Failed diagnostic => Raise (RemoteError diagnostic)
     end).

Notation "x <- m ;; k" := (bind m (fun x => k))
  (at level 61, m at next level, right associativity).
Notation "' pat <- m ;; k" := (bind m (fun x => match x with pat => k end))
  (at level 61, pat pattern, m at next level, right associativity).

(** [_get_doc_with_tabs]; [includeTabsContent] is always true. *)
Definition _get_doc_with_tabs (document_id : string) : tool Document :=
  execute (GetDocument document_id) (fun docs => documents_get docs document_id).

(** [docs.documents().batchUpdate(documentId=..., body={"requests": ...}).execute()]. *)
Definition batchUpdate (document_id : string) (requests : list dict) : tool BatchUpdateResponse :=
  execute (BatchUpdate document_id requests)
          (fun docs => documents_batchUpdate docs document_id requests).

(** Runs a tool against a service, from an empty log. *)
Definition run {A : Type} (docs : Service) (m : tool A) : list call * result A :=
  m docs [].

(** The string ["\n\n---\n\n"] that separates the sections of a document,
    and the dash of the single-tab header (U+2014 in UTF-8). *)
Definition section_separator : string := (nl ++ nl ++ "---" ++ nl ++ nl)%string.
Definition em_dash : string :=
  String (ascii_of_nat 226) (String (ascii_of_nat 128) (String (ascii_of_nat 148) EmptyString)).

(** The requests built by [append_text] and [insert_text]. *)
Definition insertText_request (location : dict) (text : string) : dict :=
  [("insertText", JObj [("location", JObj location); ("text", JStr text)])].

Section Server.

(** [str.lower]. *)
Variable lower : string -> string.

(** *** [_find_tab] *)

(** The loop over the flattened entries. *)
Fixpoint find_entry (flat : list TabEntry) (tab_id tab_title : string) : option Tab :=
  match flat with
  | [] => None
  | entry :: rest =>
      if truthy tab_id && String.eqb (e_tabId entry) tab_id then Some (e_tab entry)
      else if truthy tab_title && String.eqb (lower (e_title entry)) (lower tab_title)
           then Some (e_tab entry)
      else find_entry rest tab_id tab_title
  end.

(** The two tests of the loop on one entry. *)
Definition entry_matches (tab_id tab_title : string) (entry : TabEntry) : bool :=
  (truthy tab_id && String.eqb (e_tabId entry) tab_id) ||
  (truthy tab_title && String.eqb (lower (e_title entry)) (lower tab_title)).

Definition _find_tab (tabs : list Tab) (tab_id tab_title : string) : option Tab :=
  let flat := _flatten_tabs tabs 0 in
  find_entry flat tab_id tab_title.

(** *** [_resolve_tab]

    [if not tab] holds exactly when [_find_tab] returned [None]: a tab it
    returns matched a non-empty id or title, so it has a ["tabProperties"]
    key and is not the empty dict (lemma [find_entry_has_properties]). *)
Definition _resolve_tab (doc : Document) (tab_id tab_title : string) : result (Body * string) :=
  match tabs doc with
  | [] => Ok (default_to empty_body (doc_body doc), "")
  | first :: _ =>
      if truthy tab_id || truthy tab_title then
        match _find_tab (tabs doc) tab_id tab_title with
        | None => Raise (TabNotFound tab_id tab_title)
        | Some tab =>
            let props := default_to empty_props (tabProperties tab) in
            let body := default_to empty_body (dt_body (default_to empty_documentTab (documentTab tab))) in
            Ok (body, default_to "" (tabId props))
        end
      else
        let props := default_to empty_props (tabProperties first) in
        let body := default_to empty_body (dt_body (default_to empty_documentTab (documentTab first))) in
        Ok (body, default_to "" (tabId props))
  end.

(** *** [read_document] *)

(** One turn of the loop over [flat]: the section appended for [entry]. *)
Definition read_section (sections : list string) (entry : TabEntry) : list string :=
  let tab_obj := e_tab entry in
  let tab_name := e_title entry in
  let body := default_to empty_body (dt_body (default_to empty_documentTab (documentTab tab_obj))) in
  let text := _extract_text_from_body body in
  let heading_level := str_repeat "#" (e_depth entry + 2) in
  sections ++ [(heading_level ++ " [" ++ tab_name ++ "]" ++ nl ++ nl ++ text)%string].

Definition read_document (document_id tab_id tab_title : string) : tool string :=
  doc <- _get_doc_with_tabs document_id ;;
  let title := default_to "Untitled" (doc_title doc) in
  if truthy tab_id || truthy tab_title then
    ' (body, resolved_id) <- lift (_resolve_tab doc tab_id tab_title) ;;
    let tab := _find_tab (tabs doc) resolved_id "" in
    let tab_name :=
      match tab with
      | Some t => default_to "" (tp_title (default_to empty_props (tabProperties t)))
      | None => ""
      end in
    let text := _extract_text_from_body body in
    ret ("# " ++ title ++ " " ++ em_dash ++ " [" ++ tab_name ++ "]" ++ nl ++ nl ++ text)%string
  else
    match tabs doc with
    | [] =>
        let body := default_to empty_body (doc_body doc) in
        let text := _extract_text_from_body body in
        ret ("# " ++ title ++ nl ++ nl ++ text)%string
    | _ :: _ =>
        let flat := _flatten_tabs (tabs doc) 0 in
        let sections := fold_left read_section flat [("# " ++ title ++ nl)%string] in
        ret (String.concat section_separator sections)
    end.

(** *** [append_text]

    The tools return [json.dumps] of a dict; the embedding returns the
    dict. *)
Definition append_text (document_id text tab_id tab_title : string) : tool dict :=
  doc <- _get_doc_with_tabs document_id ;;
  ' (body, resolved_tab_id) <- lift (_resolve_tab doc tab_id tab_title) ;;
  let end_idx := _body_end_index body in
  let text := if (end_idx >? 1)%Z then (nl ++ text)%string else text in
  let location := [("index", JInt end_idx)] in
  let location :=
    if truthy resolved_tab_id then dict_set "tabId" (JStr resolved_tab_id) location
    else location in
  _ <- batchUpdate document_id [insertText_request location text] ;;
  ret [("status", JStr "ok"); ("appended_chars", JInt (py_len text));
       ("at_index", JInt end_idx); ("tabId", JStr resolved_tab_id)].

(** *** [insert_text] *)
Definition insert_text (document_id text : string) (index : Z) (tab_id tab_title : string) : tool dict :=
  let location := [("index", JInt index)] in
  location <-
    (if truthy tab_id then ret (dict_set "tabId" (JStr tab_id) location)
     else if truthy tab_title then
       doc <- _get_doc_with_tabs document_id ;;
       ' (_, resolved_tab_id) <- lift (_resolve_tab doc "" tab_title) ;;
       ret (if truthy resolved_tab_id then dict_set "tabId" (JStr resolved_tab_id) location
            else location)
     else ret location) ;;
  _ <- batchUpdate document_id [insertText_request location text] ;;
  ret [("status", JStr "ok"); ("inserted_chars", JInt (py_len text));
       ("at_index", JInt index);
       ("tabId", default_to (JStr "") (dict_get "tabId" location))].

(** *** [replace_text] and [batch_update]: the tab both resolve

    [resolved_tab_id = tab_id; if not resolved_tab_id and tab_title: ...]. *)
Definition resolve_scope (document_id tab_id tab_title : string) : tool string :=
  let resolved_tab_id := tab_id in
  if negb (truthy resolved_tab_id) && truthy tab_title then
    doc <- _get_doc_with_tabs document_id ;;
    ' (_, resolved_tab_id) <- lift (_resolve_tab doc "" tab_title) ;;
    ret resolved_tab_id
  else ret resolved_tab_id.

Definition replace_text (document_id find replace_with : string) (match_case : bool)
           (tab_id tab_title : string) : tool dict :=
  let request_body :=
    [("containsText", JObj [("text", JStr find); ("matchCase", JBool match_case)]);
     ("replaceText", JStr replace_with)] in
  resolved_tab_id <- resolve_scope document_id tab_id tab_title ;;
  let request_body :=
    if truthy resolved_tab_id
    then dict_set "tabsCriteria" (JObj [("tabIds", JArr [JStr resolved_tab_id])]) request_body
    else request_body in
  let request := [("replaceAllText", JObj request_body)] in
  result <- batchUpdate document_id [request] ;;
  let replies := default_to [mkReply None] (replies result) in
  let count :=
    match replies with
    | [] => 0%Z
    | reply :: _ =>
        default_to 0%Z (occurrencesChanged
          (default_to (mkReplaceAllTextReply None) (replaceAllText reply)))
    end in
  ret [("status", JStr "ok"); ("occurrences_replaced", JInt count);
       ("tabId", JStr resolved_tab_id)].

Definition batch_update (document_id : string) (requests : list dict)
           (tab_id tab_title : string) : tool dict :=
  resolved_tab_id <- resolve_scope document_id tab_id tab_title ;;
  requests <- lift (scope_requests resolved_tab_id requests) ;;
  result <- batchUpdate document_id requests ;;
  let replies := default_to [] (replies result) in
  ret [("status", JStr "ok"); ("replies_count", JInt (Z.of_nat (List.length replies)));
       ("documentId", JStr (default_to document_id (resp_documentId result)));
       ("tabId", JStr resolved_tab_id)].

End Server.

(** ** Definitions used to state the properties *)

(** The text runs of a paragraph, in order: what the line is joined from. *)
Definition run_texts (para : Paragraph) : list string :=
  flat_map
    (fun elem =>
       match textRun elem with
       | Some text_run => [default_to "" (tr_content text_run)]
       | None => []
       end)
    (elements para).

(** The named style of a paragraph and the markdown prefix it maps to. *)
Definition named_style_of (para : Paragraph) : string :=
  default_to "NORMAL_TEXT" (namedStyleType (default_to empty_style (paragraphStyle para))).

Definition prefix_of (para : Paragraph) : string :=
  map_get heading_map (named_style_of para) "".

(** The lines a structural element contributes to the rendering. *)
Definition emitted_lines (element : StructuralElement) : list string :=
  extract_step [] element.

(** The names of the heading styles. *)
Definition heading_style (level : nat) : string :=
  ("HEADING_" ++ String (ascii_of_nat (48 + level)) EmptyString)%string.

(** The body a tab owns. *)
Definition tab_body (tab : Tab) : Body :=
  default_to empty_body (dt_body (default_to empty_documentTab (documentTab tab))).

(** The pre-order listing of a forest whose roots have [ancestors]
    ancestors: a tab, then the listing of its children, which have one
    ancestor more, then the listing of its later siblings. *)
Inductive preorder_listing : nat -> list Tab -> list TabEntry -> Prop :=
| listing_nil (ancestors : nat) :
    preorder_listing ancestors [] []
| listing_cons (ancestors : nat) (tab : Tab) (siblings : list Tab)
               (below after : list TabEntry) :
    preorder_listing (S ancestors) (childTabs tab) below ->
    preorder_listing ancestors siblings after ->
    preorder_listing ancestors (tab :: siblings) (tab_entry ancestors tab :: below ++ after).

(** The tree A(B, C(D)) over arbitrary tab contents. *)
Definition tree_D (pD : option TabProperties) (dD : option DocumentTab) : Tab :=
  mkTab pD [] dD.
Definition tree_C (pC pD : option TabProperties) (dC dD : option DocumentTab) : Tab :=
  mkTab pC [tree_D pD dD] dC.
Definition tree_B (pB : option TabProperties) (dB : option DocumentTab) : Tab :=
  mkTab pB [] dB.
Definition tree_A (pA pB pC pD : option TabProperties) (dA dB dC dD : option DocumentTab) : Tab :=
  mkTab pA [tree_B pB dB; tree_C pC pD dC dD] dA.

(** The location [append_text] and [insert_text] send: the index, and the
    tab id when there is one. *)
Definition scoped_location (index : Z) (resolved_tab_id : string) : dict :=
  if truthy resolved_tab_id
  then [("index", JInt index); ("tabId", JStr resolved_tab_id)]
  else [("index", JInt index)].

(** The request [replace_text] sends when it has a tab id. *)
Definition scoped_replace_request (find replace_with : string) (match_case : bool)
           (resolved_tab_id : string) : dict :=
  [("replaceAllText",
    JObj [("containsText", JObj [("text", JStr find); ("matchCase", JBool match_case)]);
          ("replaceText", JStr replace_with);
          ("tabsCriteria", JObj [("tabIds", JArr [JStr resolved_tab_id])])])].

(** The section of a tab in the rendering of a whole document: a header
    of [depth + 2] number signs with the title, a blank line, the text of
    the tab's own body. *)
Definition tab_section (entry : TabEntry) : string :=
  (str_repeat "#" (e_depth entry + 2) ++ " [" ++ e_title entry ++ "]" ++ nl ++ nl ++
   _extract_text_from_body (tab_body (e_tab entry)))%string.

(** The document-level title that opens the rendering. *)
Definition title_section (doc : Document) : string :=
  ("# " ++ default_to "Untitled" (doc_title doc) ++ nl)%string.

(** A tool ended with the tab-not-found error. *)
Definition is_tab_not_found {A : Type} (r : result A) : bool :=
  match r with
  | Raise (TabNotFound _ _) => true
  | _ => false
  end.


(** *** Shapes of edit requests

    A request of the data model carries location and range fields that are
    objects, each with or without a ["tabId"]. *)
Definition field_is_object (op_body : dict) (key : string) : bool :=
  match dict_get key op_body with
  | None => true
  | Some (JObj _) => true
  | Some _ => false
  end.

Definition op_well_shaped (item : string * json) : bool :=
  match snd item with
  | JObj body => forallb (field_is_object body) scope_keys
  | _ => true
  end.

Definition batch_well_shaped (requests : list dict) : bool :=
  forallb (forallb op_well_shaped) requests.

(** A field that, when present, is an object with an explicit ["tabId"]. *)
Definition field_is_scoped (op_body : dict) (key : string) : bool :=
  match dict_get key op_body with
  | None => true
  | Some (JObj target) => dict_has "tabId" target
  | Some _ => false
  end.

Definition op_explicitly_scoped (item : string * json) : bool :=
  match snd item with
  | JObj body =>
      forallb (field_is_scoped body) scope_keys &&
      (negb (dict_has "containsText" body) || dict_has "tabsCriteria" body)
  | _ => true
  end.

Definition batch_explicitly_scoped (requests : list dict) : bool :=
  forallb (forallb op_explicitly_scoped) requests.

(** What the rewrite makes of the value of a location or range field. *)
Definition scoped_value (resolved_tab_id : string) (v : json) : json :=
  match v with
  | JObj target =>
      if dict_has "tabId" target then v
      else JObj (dict_set "tabId" (JStr resolved_tab_id) target)
  | _ => v
  end.

(** The criterion that scopes a text match to exactly one tab. *)
Definition tabs_criteria (resolved_tab_id : string) : json :=
  JObj [("tabIds", JArr [JStr resolved_tab_id])].

(** How the body of an operation stands after the rewrite: unscoped
    fields have gained the tab id, an unscoped text match has gained the
    criterion, scoped fields and every other key are as they were. *)
Definition scoped_body (resolved_tab_id : string) (body body' : dict) : Prop :=
  (forall key target,
      In key scope_keys ->
      dict_get key body = Some (JObj target) ->
      dict_has "tabId" target = false ->
      dict_get key body' = Some (JObj (target ++ [("tabId", JStr resolved_tab_id)]))) /\
  (dict_has "containsText" body = true ->
   dict_has "tabsCriteria" body = false ->
   dict_get "tabsCriteria" body' = Some (tabs_criteria resolved_tab_id)).

Definition kept_body (body body' : dict) : Prop :=
  (forall key target,
      In key scope_keys ->
      dict_get key body = Some (JObj target) ->
      dict_has "tabId" target = true ->
      dict_get key body' = Some (JObj target)) /\
  (dict_has "tabsCriteria" body = true ->
   dict_get "tabsCriteria" body' = dict_get "tabsCriteria" body) /\
  (forall key,
      ~ In key scope_keys -> key <> "tabsCriteria" ->
      dict_get key body' = dict_get key body).

(** The relation between an item [(op_name, op_body)] of a request and
    the item at its place after the rewrite. *)
Definition rewritten_op (relate : dict -> dict -> Prop) (item item' : string * json) : Prop :=
  fst item' = fst item /\
  match snd item with
  | JObj body => exists body', snd item' = JObj body' /\ relate body body'
  | other => snd item' = other
  end.

(** Renaming the operations of a request. *)
Definition rename_ops (f : string -> string) (req : dict) : dict :=
  map (fun item => (f (fst item), snd item)) req.

(** ** Sample inputs *)

Definition text_paragraph (style : option string) (text : string) (end_index : option Z)
  : StructuralElement :=
  mkStructuralElement
    (Some (mkParagraph (Some (mkParagraphStyle style))
                       [mkParagraphElement (Some (mkTextRun (Some text)))]))
    end_index.

(** A body whose last element ends at index 50. *)
Definition body_ending_at_50 : Body :=
  mkBody [ text_paragraph (Some "HEADING_2") ("Intro" ++ nl) (Some 7%Z);
           text_paragraph None ("Body text" ++ nl)
                          (Some 50%Z) ].

(** A body whose only element records no end index. *)
Definition body_without_end_index : Body :=
  mkBody [ text_paragraph None ("text" ++ nl) None ].

Definition leaf_tab (id title : string) (body : Body) : Tab :=
  mkTab (Some (mkTabProperties (Some id) (Some title) None)) []
        (Some (mkDocumentTab (Some body))).

(** Two tabs with the same title: titles are not unique in a document. *)
Definition notes_first : Tab := leaf_tab "t1" "Notes" body_ending_at_50.
Definition notes_second : Tab := leaf_tab "t2" "Notes" body_without_end_index.
Definition notes_doc : Document :=
  mkDocument (Some "Plan") (Some "doc") None [notes_first; notes_second].

(** A document with one tab that has an empty body. *)
Definition blank_doc : Document :=
  mkDocument (Some "Blank") (Some "doc") None [leaf_tab "t0" "Empty" empty_body].

(** A legacy document: a flat body and no tabs. *)
Definition legacy_doc : Document :=
  mkDocument (Some "Old") (Some "doc") (Some body_ending_at_50) [].

(** A service that holds one document and accepts every edit. *)
Definition service_of (doc : Document) : Service :=
  mkService (fun _ => Returned doc)
            (fun _ _ => Returned (mkBatchUpdateResponse None None)).

(** An [insertText] request whose location has no tab scope, one whose
    location has one, and a [replaceAllText] request without criteria. *)
Definition unscoped_insert : dict :=
  [("insertText", JObj [("location", JObj [("index", JInt 1)]); ("text", JStr "x")])].
Definition scoped_insert : dict :=
  [("insertText",
    JObj [("location", JObj [("index", JInt 1); ("tabId", JStr "t9")]); ("text", JStr "x")])].
Definition unscoped_replace : dict :=
  [("replaceAllText",
    JObj [("containsText", JObj [("text", JStr "a"); ("matchCase", JBool true)]);
          ("replaceText", JStr "b")])].

(** ** The read-only tools [list_tabs] and [get_document_info] *)

(** The dict [list_tabs] lists for an entry. *)
Definition tab_listing (entry : TabEntry) : json :=
  JObj [("tabId", JStr (e_tabId entry)); ("title", JStr (e_title entry));
        ("index", JInt (e_index entry)); ("depth", JInt (Z.of_nat (e_depth entry)))].

Definition list_tabs (document_id : string) : tool dict :=
  doc <- _get_doc_with_tabs document_id ;;
  let flat := _flatten_tabs (tabs doc) 0 in
  let tab_list := fold_left (fun tab_list entry => tab_list ++ [tab_listing entry]) flat [] in
  ret [("documentTitle", JStr (default_to "Untitled" (doc_title doc)));
       ("tabs", JArr tab_list);
       ("count", JInt (Z.of_nat (List.length tab_list)))].

(** The dict [get_document_info] lists for an entry. *)
Definition tab_info (entry : TabEntry) : json :=
  JObj [("tabId", JStr (e_tabId entry)); ("title", JStr (e_title entry))].

Definition get_document_info (document_id : string) : tool dict :=
  doc <- _get_doc_with_tabs document_id ;;
  let title := default_to "Untitled" (doc_title doc) in
  let doc_id := default_to document_id (doc_documentId doc) in
  let link := ("https://docs.google.com/document/d/" ++ doc_id ++ "/edit")%string in
  let flat := _flatten_tabs (tabs doc) 0 in
  ret [("title", JStr title); ("documentId", JStr doc_id); ("link", JStr link);
       ("tabs", JArr (map tab_info flat))].

(** ** [create_document]

    The tool calls [documents().create] and, for a non-empty text,
    [documents().batchUpdate] on the id it read with [doc.get("documentId")],
    which is [None] when the key is absent: the client of this tool takes
    an optional id. *)





(** ** [list_documents]

    The source reads [f["id"]] and [f["name"]] without a default and the
    other two keys with one: a listed file is a record with the first two
    present.  The [fields] and [orderBy] arguments of the listing are
    constants of the source; the listing is a function of the query string
    and the page size. *)

Record DriveFile := mkDriveFile {
  file_id : string;
  file_name : string;
  file_modifiedTime : option string;
  file_webViewLink : option string
}.

Record FileList := mkFileList {
  files : option (list DriveFile)
}.

Definition single_quote : ascii := ascii_of_nat 39.
Definition backslash : ascii := ascii_of_nat 92.

(** [query.replace("'", "\\'")]. *)
Fixpoint escape_quotes (query : string) : string :=
  match query with
  | EmptyString => EmptyString
  | String c rest =>
      if Ascii.eqb c single_quote
      then String backslash (String single_quote (escape_quotes rest))
      else String c (escape_quotes rest)
  end.

(** The [q] argument of the listing. *)
Definition drive_query (query : string) : string :=
  let q := "mimeType='application/vnd.google-apps.document' and trashed=false" in
  if truthy query
  then (q ++ " and name contains '" ++ escape_quotes query ++ "'")%string
  else q.

Definition listed_document (f : DriveFile) : json :=
  JObj [("documentId", JStr (file_id f)); ("title", JStr (file_name f));
        ("modifiedTime", JStr (default_to "" (file_modifiedTime f)));
        ("link", JStr (default_to "" (file_webViewLink f)))].

(** The one call [list_documents] makes. *)
Inductive drive_call :=
| ListFiles (q : string) (pageSize : Z).

Definition list_documents (files_list : string -> Z -> remote FileList)
           (query : string) (max_results : Z) : list drive_call * result dict :=
  let max_results := Z.min max_results 100 in
  let q := drive_query query in
  ([ListFiles q max_results],
   match files_list q max_results with
   | Failed diagnostic => Raise (RemoteError diagnostic)
   | Returned results =>
       match default_to [] (files results) with
       | [] => Ok [("documents", JArr []); ("message", JStr "No documents found")]
       | (_ :: _) as found =>
           let docs_list := map listed_document found in
           Ok [("documents", JArr docs_list);
               ("count", JInt (Z.of_nat (List.length docs_list)))]
       end
   end).

(** ** Definitions used to state further properties *)

(** The number of tabs of a tree and of a forest, at all levels. *)
Fixpoint tab_size (tab : Tab) : nat :=
  S ((fix over_children (children : list Tab) : nat :=
        match children with
        | [] => 0
        | child :: rest => tab_size child + over_children rest
        end) (childTabs tab)).

Definition forest_size (tabs : list Tab) : nat :=
  list_sum (map tab_size tabs).

(** From one entry to the next the depth goes up by at most one. *)
Fixpoint depth_steps_ok (previous : nat) (flat : list TabEntry) : bool :=
  match flat with
  | [] => true
  | entry :: rest =>
      (e_depth entry <=? S previous)%nat && depth_steps_ok (e_depth entry) rest
  end.

(** A value the key loop of the rewrite gets past: an object, or a str or
    a list in which ["tabId" in v] holds. *)
Definition field_walkable (v : json) : bool :=
  match v with
  | JObj _ => true
  | JStr s => is_substring "tabId" s
  | JArr items =>
      existsb (fun x => match x with JStr s => String.eqb s "tabId" | _ => false end) items
  | _ => false
  end.

Definition key_walkable (op_body : dict) (key : string) : bool :=
  match dict_get key op_body with
  | None => true
  | Some v => field_walkable v
  end.

Definition op_walkable (item : string * json) : bool :=
  match snd item with
  | JObj body => forallb (key_walkable body) scope_keys
  | _ => true
  end.

Definition batch_walkable (requests : list dict) : bool :=
  forallb (forallb op_walkable) requests.

(** The trace of a tool: at most one fetch, then at most one edit, both
    of the document the tool was called for. *)
Definition single_round_trip (document_id : string) (trace : list call) : Prop :=
  trace = [] \/
  trace = [GetDocument document_id] \/
  (exists requests, trace = [BatchUpdate document_id requests]) \/
  (exists requests, trace = [GetDocument document_id; BatchUpdate document_id requests]).

(** If the edit [requests] of [document_id] is among the calls of a run,
    the run ends as that edit ends. *)
Definition edit_decides {A : Type} (docs : Service) (document_id : string)
           (requests : list dict) (ran : list call * result A) : Prop :=
  In (BatchUpdate document_id requests) (fst ran) ->
  match documents_batchUpdate docs document_id requests with
  | Failed diagnostic => snd ran = Raise (RemoteError diagnostic)
  | Returned _ => exists answer, snd ran = Ok answer
  end.

(** Every single quote of [s] stands right after a backslash. *)
Fixpoint quotes_follow_backslash (after_backslash : bool) (s : string) : bool :=
  match s with
  | EmptyString => true
  | String c rest =>
      (negb (Ascii.eqb c single_quote) || after_backslash) &&
      quotes_follow_backslash (Ascii.eqb c backslash) rest
  end.

(** The request [replace_text] sends when it has no tab id. *)
Definition unscoped_replace_request (find replace_with : string) (match_case : bool) : dict :=
  [("replaceAllText",
    JObj [("containsText", JObj [("text", JStr find); ("matchCase", JBool match_case)]);
          ("replaceText", JStr replace_with)])].

(** The number of occurrences [replace_text] reports for a response. *)
Definition reported_occurrences (response : BatchUpdateResponse) : Z :=
  match replies response with
  | None => 0%Z
  | Some [] => 0%Z
  | Some (reply :: _) =>
      match replaceAllText reply with
      | None => 0%Z
      | Some changed => default_to 0%Z (occurrencesChanged changed)
      end
  end.

(** ** Further sample inputs *)

(** A service whose fetch fails. *)
Definition unreachable_service : Service :=
  mkService (fun _ => Failed "quota exceeded")
            (fun _ _ => Returned (mkBatchUpdateResponse None None)).

(** A service that holds the two-tab document and answers every edit with
    one reply that counts three replacements. *)
Definition counting_service : Service :=
  mkService (fun _ => Returned notes_doc)
            (fun _ _ =>
               Returned (mkBatchUpdateResponse
                           (Some [mkReply (Some (mkReplaceAllTextReply (Some 3%Z)))])
                           (Some "doc"))).


(** A listing that finds two files. *)
Definition two_files : string -> Z -> remote FileList :=
  fun _ _ =>
    Returned (mkFileList
                (Some [mkDriveFile "f1" "Plan" (Some "2025-01-02") None;
                       mkDriveFile "f2" "Notes" None (Some "https://example.org/f2")])).

(** A request whose location is a number. *)
Definition number_location : dict :=
  [("insertText", JObj [("location", JInt 5); ("text", JStr "x")])].

(** ** The scope rewrite, field by field

    The tool's documentation names the three fields the rewrite scopes:
    ["location"], ["range"] and ["insertionLocation"]. The statements
    below name them the same way. *)

(** Every field with one of the three names that stands directly in an
    operation body is an object. *)
Definition direct_fields_are_objects (requests : list dict) : bool :=
  forallb
    (forallb
       (fun item : string * json =>
          match snd item with
          | JObj body =>
              forallb
                (fun key =>
                   match dict_get key body with
                   | None => true
                   | Some (JObj _) => true
                   | Some _ => false
                   end)
                ["location"; "range"; "insertionLocation"]
          | _ => true
          end))
    requests.

(** How an operation body stands after the rewrite. A field with one of
    the three names that stands directly in the body and is an object
    without a ["tabId"] has gained the identifier under that key as its
    last entry; a body with ["containsText"] and no ["tabsCriteria"] has
    gained the criterion that lists exactly the identifier; the value
    under every other key is the value it was, whatever it holds. *)
Definition direct_fields_scoped (resolved_tab_id : string) (body body' : dict) : Prop :=
  (forall key target,
      key = "location" \/ key = "range" \/ key = "insertionLocation" ->
      dict_get key body = Some (JObj target) ->
      dict_has "tabId" target = false ->
      dict_get key body' = Some (JObj (target ++ [("tabId", JStr resolved_tab_id)]))) /\
  (dict_has "containsText" body = true ->
   dict_has "tabsCriteria" body = false ->
   dict_get "tabsCriteria" body' = Some (JObj [("tabIds", JArr [JStr resolved_tab_id])])) /\
  (forall key,
      key <> "location" -> key <> "range" -> key <> "insertionLocation" ->
      key <> "tabsCriteria" ->
      dict_get key body' = dict_get key body).

(** A range without a ["tabId"], one level below the body of its
    operation. *)
Definition unscoped_range : dict :=
  [("startIndex", JInt 1); ("endIndex", JInt 5)].

Definition nested_range_request : dict :=
  [("updateTextStyle",
    JObj [("fields", JStr "bold");
          ("target", JObj [("range", JObj unscoped_range)])])].

(** * Properties *)

(** ** Loops as list functions *)

Lemma fold_left_append {A B : Type} (f : A -> list B) (l : list A) (init : list B) :
  fold_left (fun acc a => acc ++ f a) l init = init ++ flat_map f l.
Proof.
  revert init.
  induction l as [|a l IH]; intros init; simpl.
  - now rewrite app_nil_r.
  - rewrite IH. now rewrite app_assoc.
Qed.

Lemma fold_left_step_append {A B : Type} (step : list B -> A -> list B) (f : A -> list B) :
  (forall acc a, step acc a = acc ++ f a) ->
  forall l init, fold_left step l init = init ++ flat_map f l.
Proof.
  intros Hstep l.
  induction l as [|a l IH]; intros init; simpl.
  - now rewrite app_nil_r.
  - rewrite Hstep, IH. now rewrite app_assoc.
Qed.

Lemma flat_map_singleton {A B : Type} (f : A -> B) (l : list A) :
  flat_map (fun a => [f a]) l = map f l.
Proof.
  induction l as [|a l IH]; simpl; [reflexivity | now rewrite IH].
Qed.

Lemma find_pointwise {A : Type} (f g : A -> bool) (l : list A) :
  (forall a, f a = g a) -> find f l = find g l.
Proof.
  intros Hfg. induction l as [|a l IH]; simpl; [reflexivity|].
  rewrite Hfg, IH. reflexivity.
Qed.

(** ** The flattener *)

Lemma _flatten_tabs_flat_map (tabs : list Tab) (depth : nat) :
  _flatten_tabs tabs depth = flat_map (flatten_tab depth) tabs.
Proof.
  unfold _flatten_tabs.
  now rewrite (fold_left_append (flatten_tab depth) tabs []).
Qed.

(** The recursive call of the source: the loop body for [tab] is its entry
    followed by [_flatten_tabs([child], depth + 1)] for each child. *)
Lemma flatten_tab_children (depth : nat) (tab : Tab) :
  flatten_tab depth tab =
  tab_entry depth tab :: flat_map (fun child => _flatten_tabs [child] (S depth)) (childTabs tab).
Proof.
  destruct tab as [props children dt]. reflexivity.
Qed.

Lemma flatten_tab_unfold (depth : nat) (tab : Tab) :
  flatten_tab depth tab = tab_entry depth tab :: _flatten_tabs (childTabs tab) (S depth).
Proof.
  rewrite flatten_tab_children, _flatten_tabs_flat_map.
  reflexivity.
Qed.

Lemma _flatten_tabs_cons (tab : Tab) (rest : list Tab) (depth : nat) :
  _flatten_tabs (tab :: rest) depth =
  tab_entry depth tab :: _flatten_tabs (childTabs tab) (S depth) ++ _flatten_tabs rest depth.
Proof.
  rewrite !_flatten_tabs_flat_map. simpl.
  now rewrite flatten_tab_unfold, _flatten_tabs_flat_map.
Qed.

Lemma _flatten_tabs_app (l1 l2 : list Tab) (depth : nat) :
  _flatten_tabs (l1 ++ l2) depth = _flatten_tabs l1 depth ++ _flatten_tabs l2 depth.
Proof.
  rewrite !_flatten_tabs_flat_map. apply flat_map_app.
Qed.

(** A child is listed after its parent, one level deeper, and before the
    parent's later siblings. *)
Lemma _flatten_tabs_child (before after : list Tab) (parent child : Tab) (depth : nat) :
  In child (childTabs parent) ->
  exists mid tail,
    _flatten_tabs (before ++ parent :: after) depth =
    _flatten_tabs before depth ++
    tab_entry depth parent :: mid ++ tab_entry (S depth) child :: tail ++
    _flatten_tabs after depth.
Proof.
  intros Hin.
  apply in_split in Hin. destruct Hin as [c1 [c2 Hsplit]].
  exists (_flatten_tabs c1 (S depth)).
  exists (_flatten_tabs (childTabs child) (S (S depth)) ++ _flatten_tabs c2 (S depth)).
  rewrite _flatten_tabs_app, _flatten_tabs_cons, Hsplit.
  rewrite _flatten_tabs_app, _flatten_tabs_cons.
  f_equal. simpl. f_equal.
  rewrite <- !app_assoc. simpl. now rewrite <- !app_assoc.
Qed.

Lemma preorder_listing_children (tab : Tab) :
  forall depth,
    preorder_listing depth (childTabs tab) (_flatten_tabs (childTabs tab) depth).
Proof.
  induction tab as [props children dt IH] using Tab_forest_ind.
  cbn [childTabs].
  induction IH as [|child rest Hchild _ IHrest]; intros depth.
  - constructor.
  - rewrite _flatten_tabs_cons.
    constructor; [apply Hchild | apply IHrest].
Qed.

Lemma _flatten_tabs_preorder (tabs : list Tab) (depth : nat) :
  preorder_listing depth tabs (_flatten_tabs tabs depth).
Proof.
  exact (preorder_listing_children (mkTab None tabs None) depth).
Qed.

(** C7. Flattening is the pre-order listing of the tab forest with the
    nesting depth, top-level tabs at depth 0: no tabs give no entries; a
    tab comes first at the current depth, then its children one level
    deeper, then its later siblings; a child follows its parent one level
    deeper; and the tree A(B, C(D)) gives A at 0, B at 1, C at 1, D at 2,
    in that order. *)
Theorem C7_flatten_preorder_depth :
  (forall tabs, preorder_listing 0 tabs (_flatten_tabs tabs 0)) /\
  (forall depth, _flatten_tabs [] depth = []) /\
  (forall tab rest depth,
      _flatten_tabs (tab :: rest) depth =
      tab_entry depth tab :: _flatten_tabs (childTabs tab) (S depth) ++ _flatten_tabs rest depth) /\
  (forall tab depth, e_depth (tab_entry depth tab) = depth /\ e_tab (tab_entry depth tab) = tab) /\
  (forall before after parent child depth,
      In child (childTabs parent) ->
      exists mid tail,
        _flatten_tabs (before ++ parent :: after) depth =
        _flatten_tabs before depth ++
        tab_entry depth parent :: mid ++ tab_entry (S depth) child :: tail ++
        _flatten_tabs after depth) /\
  (forall pA pB pC pD dA dB dC dD,
      _flatten_tabs [tree_A pA pB pC pD dA dB dC dD] 0 =
      [ tab_entry 0 (tree_A pA pB pC pD dA dB dC dD);
        tab_entry 1 (tree_B pB dB);
        tab_entry 1 (tree_C pC pD dC dD);
        tab_entry 2 (tree_D pD dD) ]).
Proof.
  split; [intros tabs; apply _flatten_tabs_preorder|].
  split; [reflexivity|].
  split; [exact _flatten_tabs_cons|].
  split; [intros; split; reflexivity|].
  split; [intros; now apply _flatten_tabs_child|].
  intros. reflexivity.
Qed.

(** ** The extractor *)

Lemma truthy_false_iff (s : string) : truthy s = false <-> s = "".
Proof.
  destruct s; simpl; split; intros H; try reflexivity; discriminate.
Qed.

Lemma truthy_true_iff (s : string) : truthy s = true <-> s <> "".
Proof.
  destruct s; simpl; split; intros H; try reflexivity; try discriminate.
  now contradiction H.
Qed.

Lemma collect_line_parts_run_texts (para : Paragraph) :
  collect_line_parts para = run_texts para.
Proof.
  unfold collect_line_parts, run_texts.
  rewrite fold_left_step_append with
    (f := fun elem => match textRun elem with
                      | Some text_run => [default_to "" (tr_content text_run)]
                      | None => []
                      end).
  - reflexivity.
  - intros acc elem. destruct (textRun elem); [reflexivity | now rewrite app_nil_r].
Qed.

Lemma extract_step_emits (parts : list string) (element : StructuralElement) :
  extract_step parts element = parts ++ emitted_lines element.
Proof.
  unfold emitted_lines, extract_step.
  destruct (paragraph element) as [para|]; [|now rewrite app_nil_r].
  cbv zeta.
  destruct (truthy (rstrip_nl _)); [reflexivity|].
  destruct (negb (truthy _)); [reflexivity | now rewrite app_nil_r].
Qed.

Lemma _extract_text_from_body_lines (body : Body) :
  _extract_text_from_body body = String.concat nl (flat_map emitted_lines (content body)).
Proof.
  unfold _extract_text_from_body.
  now rewrite (fold_left_step_append extract_step emitted_lines extract_step_emits).
Qed.

(** What [rstrip] removes is a run of newlines at the end ... *)
Lemma rstrip_nl_suffix (s : string) :
  exists k, s = (rstrip_nl s ++ str_repeat nl k)%string.
Proof.
  induction s as [|c rest [k IH]]; simpl.
  - now exists 0.
  - destruct (rstrip_nl rest) as [|c' kept] eqn:Hrest.
    + destruct (Ascii.eqb_spec c newline) as [->|Hc].
      * exists (S k). simpl. f_equal. exact IH.
      * exists k. simpl. f_equal. exact IH.
    + exists k. simpl. f_equal. exact IH.
Qed.

(** ... and what it keeps does not end with a newline. *)
Lemma rstrip_nl_no_trailing (s p : string) :
  rstrip_nl s <> (p ++ nl)%string.
Proof.
  revert p.
  induction s as [|c rest IH]; intros p; simpl.
  - destruct p; discriminate.
  - destruct (rstrip_nl rest) as [|c' kept] eqn:Hrest.
    + destruct (Ascii.eqb_spec c newline) as [->|Hc].
      * destruct p; discriminate.
      * destruct p as [|c0 [|c1 p']]; simpl; try discriminate.
        intros H. injection H as H. now contradiction Hc.
    + destruct p as [|c0 p']; simpl.
      * discriminate.
      * intros H. injection H as _ H. now apply (IH p').
Qed.

Lemma heading_prefix_levels (level : nat) :
  1 <= level <= 6 ->
  map_get heading_map (heading_style level) "" = (str_repeat "#" level ++ " ")%string.
Proof.
  intros [Hlo Hhi].
  do 7 (destruct level as [|level]; [try reflexivity; lia|]).
  lia.
Qed.

Lemma heading_prefix_other (style : string) :
  (forall level, 1 <= level <= 6 -> style <> heading_style level) ->
  style <> "TITLE" -> style <> "SUBTITLE" ->
  map_get heading_map style "" = "".
Proof.
  intros Hlevels Htitle Hsub.
  unfold heading_map, map_get.
  repeat match goal with
         | |- context [String.eqb ?k style] =>
             destruct (String.eqb_spec k style) as [Heq|_];
             [exfalso; symmetry in Heq|]
         end;
    try reflexivity;
    try (now apply Htitle);
    try (now apply Hsub).
  - apply (Hlevels 1); [lia | exact Heq].
  - apply (Hlevels 2); [lia | exact Heq].
  - apply (Hlevels 3); [lia | exact Heq].
  - apply (Hlevels 4); [lia | exact Heq].
  - apply (Hlevels 5); [lia | exact Heq].
  - apply (Hlevels 6); [lia | exact Heq].
Qed.

Lemma emitted_lines_paragraph (element : StructuralElement) (para : Paragraph) :
  paragraph element = Some para ->
  emitted_lines element =
  let line := rstrip_nl (String.concat "" (run_texts para)) in
  if truthy line then [(prefix_of para ++ line)%string]
  else if negb (truthy (prefix_of para)) then [""] else [].
Proof.
  intros Hpara.
  unfold emitted_lines, extract_step. rewrite Hpara.
  cbv zeta. rewrite collect_line_parts_run_texts.
  reflexivity.
Qed.

(** C6. The extractor: the heading prefixes of the named styles; the line
    of a paragraph is the concatenation of its text runs without trailing
    newlines; a non-empty line is emitted after its prefix, an empty line
    is emitted as an empty line when there is no prefix and dropped when
    there is one; elements that are not paragraphs emit nothing; and the
    rendering joins the emitted lines with single newlines, in order. *)
Theorem C6_extract_text_rendering :
  (forall level, 1 <= level <= 6 ->
     map_get heading_map (heading_style level) "" = (str_repeat "#" level ++ " ")%string) /\
  map_get heading_map "TITLE" "" = "# " /\
  map_get heading_map "SUBTITLE" "" = "## " /\
  (forall style,
     (forall level, 1 <= level <= 6 -> style <> heading_style level) ->
     style <> "TITLE" -> style <> "SUBTITLE" ->
     map_get heading_map style "" = "") /\
  (forall s,
     (exists k, s = (rstrip_nl s ++ str_repeat nl k)%string) /\
     (forall p, rstrip_nl s <> (p ++ nl)%string)) /\
  (forall element, paragraph element = None -> emitted_lines element = []) /\
  (forall element para,
     paragraph element = Some para ->
     let line := rstrip_nl (String.concat "" (run_texts para)) in
     (line <> "" -> emitted_lines element = [(prefix_of para ++ line)%string]) /\
     (line = "" -> prefix_of para = "" -> emitted_lines element = [""]) /\
     (line = "" -> prefix_of para <> "" -> emitted_lines element = [])) /\
  (forall body,
     _extract_text_from_body body =
     String.concat nl (flat_map emitted_lines (content body))).
Proof.
  split; [exact heading_prefix_levels|].
  split; [reflexivity|].
  split; [reflexivity|].
  split; [exact heading_prefix_other|].
  split; [intros s; split; [apply rstrip_nl_suffix | intros p; apply rstrip_nl_no_trailing]|].
  split.
  { intros element Hnone. unfold emitted_lines, extract_step. now rewrite Hnone. }
  split; [|exact _extract_text_from_body_lines].
  intros element para Hpara line.
  rewrite (emitted_lines_paragraph element Hpara). fold line. cbv zeta.
  repeat split.
  - intros Hline. apply truthy_true_iff in Hline. now rewrite Hline.
  - intros Hline Hprefix. rewrite Hline, Hprefix. reflexivity.
  - intros Hline Hprefix. apply truthy_true_iff in Hprefix.
    rewrite Hline, Hprefix. reflexivity.
Qed.

(** ** Dicts *)

Lemma dict_get_set_same (k : string) (v : json) (d : dict) :
  dict_get k (dict_set k v d) = Some v.
Proof.
  induction d as [|[k0 v0] d IH]; simpl.
  - now rewrite String.eqb_refl.
  - destruct (String.eqb_spec k0 k) as [Heq|Hne]; simpl.
    + now rewrite String.eqb_refl.
    + destruct (String.eqb_spec k0 k); [contradiction | exact IH].
Qed.

Lemma dict_get_set_other (k k' : string) (v : json) (d : dict) :
  k' <> k -> dict_get k' (dict_set k v d) = dict_get k' d.
Proof.
  intros Hne.
  induction d as [|[k0 v0] d IH]; simpl.
  - destruct (String.eqb_spec k k'); [now subst | reflexivity].
  - destruct (String.eqb_spec k0 k) as [Heq|Hk0]; simpl.
    + subst k0. destruct (String.eqb_spec k k'); [now subst | reflexivity].
    + destruct (String.eqb_spec k0 k'); [reflexivity | exact IH].
Qed.

Lemma dict_set_absent (k : string) (v : json) (d : dict) :
  dict_has k d = false -> dict_set k v d = d ++ [(k, v)].
Proof.
  unfold dict_has.
  induction d as [|[k0 v0] d IH]; simpl; intros Habsent.
  - reflexivity.
  - destruct (String.eqb_spec k0 k); [discriminate|].
    now rewrite IH.
Qed.

Lemma dict_has_set_same (k : string) (v : json) (d : dict) :
  dict_has k (dict_set k v d) = true.
Proof.
  unfold dict_has. now rewrite dict_get_set_same.
Qed.

Lemma dict_has_set_other (k k' : string) (v : json) (d : dict) :
  k' <> k -> dict_has k' (dict_set k v d) = dict_has k' d.
Proof.
  intros Hne. unfold dict_has. now rewrite dict_get_set_other.
Qed.

(** ** Loops that may raise *)

Lemma result_map_same {A : Type} (f : A -> result A) (l : list A) :
  (forall a, In a l -> f a = Ok a) -> result_map f l = Ok l.
Proof.
  induction l as [|a l IH]; intros Hf; simpl.
  - reflexivity.
  - rewrite (Hf a (or_introl eq_refl)). simpl.
    rewrite IH; [reflexivity|].
    intros b Hb. apply Hf. now right.
Qed.

Lemma result_map_returns {A B : Type} (f : A -> result B) (l : list A) :
  (forall a, In a l -> exists b, f a = Ok b) -> exists l', result_map f l = Ok l'.
Proof.
  induction l as [|a l IH]; intros Hf; simpl.
  - now exists [].
  - destruct (Hf a (or_introl eq_refl)) as [b Hb]. rewrite Hb. simpl.
    destruct IH as [l' Hl'].
    + intros a' Ha'. apply Hf. now right.
    + rewrite Hl'. simpl. now exists (b :: l').
Qed.

Lemma result_map_pointwise {A B : Type} (f : A -> result B) (l : list A) (l' : list B) :
  result_map f l = Ok l' -> Forall2 (fun a b => f a = Ok b) l l'.
Proof.
  revert l'.
  induction l as [|a l IH]; intros l'; simpl.
  - intros H. injection H as <-. constructor.
  - destruct (f a) as [b|e] eqn:Hfa; simpl; [|discriminate].
    destruct (result_map f l) as [bs|e]; simpl; [|discriminate].
    intros H. injection H as <-.
    constructor; [exact Hfa | now apply IH].
Qed.

Lemma result_map_rename {A B : Type} (f : A -> result B) (g : A -> A) (h : B -> B) (l : list A) :
  (forall a, f (g a) = match f a with Ok b => Ok (h b) | Raise e => Raise e end) ->
  result_map f (map g l) =
  match result_map f l with Ok l' => Ok (map h l') | Raise e => Raise e end.
Proof.
  intros Hfg.
  induction l as [|a l IH]; simpl.
  - reflexivity.
  - rewrite Hfg. destruct (f a) as [b|e]; simpl; [|reflexivity].
    rewrite IH. now destruct (result_map f l).
Qed.

(** ** The scope rewrite *)

Lemma scoped_value_object (resolved_tab_id : string) (v : json) :
  match v with JObj _ => True | _ => False end ->
  match scoped_value resolved_tab_id v with JObj _ => True | _ => False end.
Proof.
  destruct v; simpl; try contradiction.
  now destruct (dict_has "tabId" fields).
Qed.

(** What one turn of the key loop does to the op body, key by key. *)
Lemma inject_key_get (resolved_tab_id : string) (op_body op_body' : dict) (key : string) :
  inject_key resolved_tab_id op_body key = Ok op_body' ->
  forall k,
    dict_get k op_body' =
    if String.eqb k key
    then option_map (scoped_value resolved_tab_id) (dict_get key op_body)
    else dict_get k op_body.
Proof.
  unfold inject_key.
  intros Hinject k.
  destruct (String.eqb_spec k key) as [->|Hne].
  - destruct (dict_get key op_body) as [v|] eqn:Hget.
    + destruct v; simpl in Hinject; try discriminate;
        try (destruct (is_substring _ _); [|discriminate]);
        try (destruct (existsb _ _); [|discriminate]);
        try (injection Hinject as <-; now rewrite Hget).
      simpl. destruct (dict_has "tabId" fields).
      * injection Hinject as <-. exact Hget.
      * injection Hinject as <-. apply dict_get_set_same.
    + injection Hinject as <-. now rewrite Hget.
  - destruct (dict_get key op_body) as [v|] eqn:Hget.
    + destruct v; simpl in Hinject; try discriminate;
        try (destruct (is_substring _ _); [|discriminate]);
        try (destruct (existsb _ _); [|discriminate]);
        try (injection Hinject as <-; reflexivity).
      destruct (dict_has "tabId" fields).
      * now injection Hinject as <-.
      * injection Hinject as <-. now apply dict_get_set_other.
    + now injection Hinject as <-.
Qed.

Lemma inject_key_returns (resolved_tab_id : string) (op_body : dict) (key : string) :
  field_is_object op_body key = true ->
  exists op_body', inject_key resolved_tab_id op_body key = Ok op_body'.
Proof.
  unfold field_is_object, inject_key.
  destruct (dict_get key op_body) as [v|]; [|intros _; now eexists].
  destruct v; try discriminate. intros _. simpl.
  destruct (dict_has "tabId" fields); now eexists.
Qed.

Lemma inject_key_scoped (resolved_tab_id : string) (op_body : dict) (key : string) :
  field_is_scoped op_body key = true ->
  inject_key resolved_tab_id op_body key = Ok op_body.
Proof.
  unfold field_is_scoped, inject_key.
  destruct (dict_get key op_body) as [v|]; [|reflexivity].
  destruct v; try discriminate. simpl. now intros ->.
Qed.

Lemma inject_keys_get (resolved_tab_id : string) (keys : list string) :
  NoDup keys ->
  forall op_body op_body',
    inject_keys resolved_tab_id op_body keys = Ok op_body' ->
    forall k,
      dict_get k op_body' =
      if existsb (String.eqb k) keys
      then option_map (scoped_value resolved_tab_id) (dict_get k op_body)
      else dict_get k op_body.
Proof.
  induction 1 as [|key rest Hnotin Hnodup IH]; intros op_body op_body' Hinject k; simpl in *.
  - now injection Hinject as <-.
  - destruct (inject_key resolved_tab_id op_body key) as [body1|e] eqn:Hkey; simpl in Hinject;
      [|discriminate].
    rewrite (IH _ _ Hinject k).
    rewrite (inject_key_get _ _ _ Hkey k).
    destruct (String.eqb_spec k key) as [->|Hne]; simpl.
    + destruct (existsb (String.eqb key) rest) eqn:Hex; [|reflexivity].
      exfalso. apply Hnotin.
      apply existsb_exists in Hex. destruct Hex as [x [Hx Heq]].
      apply String.eqb_eq in Heq. now subst x.
    + reflexivity.
Qed.

Lemma inject_keys_returns (resolved_tab_id : string) (keys : list string) :
  forall op_body,
    forallb (field_is_object op_body) keys = true ->
    exists op_body', inject_keys resolved_tab_id op_body keys = Ok op_body'.
Proof.
  induction keys as [|key rest IH]; intros op_body Hshape; simpl in *.
  - now eexists.
  - apply andb_true_iff in Hshape. destruct Hshape as [Hkey Hrest].
    destruct (inject_key_returns resolved_tab_id op_body key Hkey) as [body1 Hbody1].
    rewrite Hbody1. simpl.
    apply IH.
    apply forallb_forall. intros k Hk.
    rewrite forallb_forall in Hrest. specialize (Hrest k Hk).
    unfold field_is_object in *.
    rewrite (inject_key_get _ _ _ Hbody1 k).
    destruct (String.eqb_spec k key) as [->|Hne]; [|exact Hrest].
    destruct (dict_get key op_body) as [v|]; simpl; [|reflexivity].
    destruct v; try discriminate. simpl.
    now destruct (dict_has "tabId" fields).
Qed.

Lemma inject_keys_scoped (resolved_tab_id : string) (keys : list string) (op_body : dict) :
  forallb (field_is_scoped op_body) keys = true ->
  inject_keys resolved_tab_id op_body keys = Ok op_body.
Proof.
  induction keys as [|key rest IH]; simpl; intros Hscoped.
  - reflexivity.
  - apply andb_true_iff in Hscoped. destruct Hscoped as [Hkey Hrest].
    rewrite (inject_key_scoped resolved_tab_id op_body key Hkey). simpl.
    now apply IH.
Qed.

Lemma scope_keys_NoDup : NoDup scope_keys.
Proof.
  unfold scope_keys.
  repeat constructor; simpl; intuition discriminate.
Qed.

Lemma in_scope_keys_existsb (k : string) :
  In k scope_keys <-> existsb (String.eqb k) scope_keys = true.
Proof.
  rewrite existsb_exists. split.
  - intros Hin. exists k. split; [exact Hin | apply String.eqb_refl].
  - intros [x [Hx Heq]]. apply String.eqb_eq in Heq. now subst x.
Qed.

Lemma inject_criteria_get (resolved_tab_id : string) (op_body : dict) (k : string) :
  dict_get k (inject_criteria resolved_tab_id op_body) =
  if String.eqb k "tabsCriteria" &&
     (dict_has "containsText" op_body && negb (dict_has "tabsCriteria" op_body))
  then Some (tabs_criteria resolved_tab_id)
  else dict_get k op_body.
Proof.
  unfold inject_criteria.
  destruct (dict_has "containsText" op_body && negb (dict_has "tabsCriteria" op_body)).
  - destruct (String.eqb_spec k "tabsCriteria") as [->|Hne]; simpl.
    + apply dict_get_set_same.
    + now apply dict_get_set_other.
  - now rewrite andb_false_r.
Qed.

(** The op body after the key loop and the criteria test. *)
Lemma scope_body_relations (resolved_tab_id : string) (body body1 : dict) :
  inject_keys resolved_tab_id body scope_keys = Ok body1 ->
  scoped_body resolved_tab_id body (inject_criteria resolved_tab_id body1) /\
  kept_body body (inject_criteria resolved_tab_id body1).
Proof.
  intros Hkeys.
  pose proof (inject_keys_get resolved_tab_id scope_keys_NoDup _ Hkeys) as Hget.
  assert (Hother : forall k, ~ In k scope_keys -> dict_get k body1 = dict_get k body).
  { intros k Hk. rewrite Hget.
    destruct (existsb (String.eqb k) scope_keys) eqn:Hex; [|reflexivity].
    exfalso. apply Hk. now apply in_scope_keys_existsb. }
  assert (Htext : dict_has "containsText" body1 = dict_has "containsText" body).
  { unfold dict_has. rewrite Hother; [reflexivity|].
    unfold scope_keys; simpl; intuition discriminate. }
  assert (Hcrit : dict_has "tabsCriteria" body1 = dict_has "tabsCriteria" body).
  { unfold dict_has. rewrite Hother; [reflexivity|].
    unfold scope_keys; simpl; intuition discriminate. }
  assert (Hkey : forall k, In k scope_keys ->
            dict_get k (inject_criteria resolved_tab_id body1) =
            option_map (scoped_value resolved_tab_id) (dict_get k body)).
  { intros k Hk. rewrite inject_criteria_get.
    destruct (String.eqb_spec k "tabsCriteria") as [->|_]; simpl.
    - exfalso. unfold scope_keys in Hk; simpl in Hk; intuition discriminate.
    - rewrite Hget. apply in_scope_keys_existsb in Hk. now rewrite Hk. }
  split; [split | split; [|split]].
  - intros key target Hin Hfield Hnone.
    rewrite (Hkey key Hin), Hfield. simpl. rewrite Hnone.
    now rewrite (dict_set_absent _ _ _ Hnone).
  - intros Hhas Hnot.
    rewrite inject_criteria_get, Htext, Hcrit, Hhas, Hnot. reflexivity.
  - intros key target Hin Hfield Hhas.
    rewrite (Hkey key Hin), Hfield. simpl. now rewrite Hhas.
  - intros Hhas.
    rewrite inject_criteria_get, Hcrit, Hhas, andb_false_r, andb_false_r.
    apply Hother. unfold scope_keys; simpl; intuition discriminate.
  - intros key Hnotin Hne.
    rewrite inject_criteria_get.
    destruct (String.eqb_spec key "tabsCriteria") as [Heq|_]; [contradiction|].
    simpl. now apply Hother.
Qed.

Lemma scope_op_relations (resolved_tab_id : string) (item item' : string * json) :
  scope_op resolved_tab_id item = Ok item' ->
  rewritten_op (scoped_body resolved_tab_id) item item' /\
  rewritten_op kept_body item item'.
Proof.
  destruct item as [op_name op_body]. unfold scope_op, rewritten_op.
  destruct op_body; cbn [fst snd];
    try (intros H; injection H as <-; cbn [fst snd]; now repeat split).
  destruct (inject_keys resolved_tab_id fields scope_keys) as [body1|e] eqn:Hkeys;
    cbn [result_bind]; [|discriminate].
  intros H. injection H as <-. cbn [fst snd].
  destruct (scope_body_relations _ _ Hkeys) as [Hscoped Hkept].
  split; (split; [reflexivity|]); eexists; (split; [reflexivity|]); assumption.
Qed.

Lemma scope_op_returns (resolved_tab_id : string) (item : string * json) :
  op_well_shaped item = true ->
  exists item', scope_op resolved_tab_id item = Ok item'.
Proof.
  destruct item as [op_name op_body]. unfold op_well_shaped, scope_op. cbn [fst snd].
  destruct op_body; try (intros _; now eexists).
  intros Hshape.
  destruct (inject_keys_returns resolved_tab_id scope_keys fields Hshape) as [body1 Hbody1].
  rewrite Hbody1. cbn [result_bind]. now eexists.
Qed.

Lemma scope_op_scoped (resolved_tab_id : string) (item : string * json) :
  op_explicitly_scoped item = true ->
  scope_op resolved_tab_id item = Ok item.
Proof.
  destruct item as [op_name op_body]. unfold op_explicitly_scoped, scope_op. cbn [fst snd].
  destruct op_body; try reflexivity.
  intros Hscoped. apply andb_true_iff in Hscoped. destruct Hscoped as [Hkeys Hcrit].
  rewrite (inject_keys_scoped resolved_tab_id scope_keys fields Hkeys). cbn [result_bind].
  unfold inject_criteria.
  destruct (dict_has "containsText" fields); cbn [negb orb andb] in *; [|reflexivity].
  now rewrite Hcrit.
Qed.

(** The rewrite never looks at the name of an operation. *)
Lemma scope_op_rename (resolved_tab_id : string) (f : string -> string) (item : string * json) :
  scope_op resolved_tab_id (f (fst item), snd item) =
  match scope_op resolved_tab_id item with
  | Ok item' => Ok (f (fst item'), snd item')
  | Raise e => Raise e
  end.
Proof.
  destruct item as [op_name op_body]. unfold scope_op. cbn [fst snd].
  destruct op_body; try reflexivity.
  now destruct (inject_keys resolved_tab_id fields scope_keys).
Qed.

Lemma scope_request_rename (resolved_tab_id : string) (f : string -> string) (req : dict) :
  scope_request resolved_tab_id (rename_ops f req) =
  match scope_request resolved_tab_id req with
  | Ok req' => Ok (rename_ops f req')
  | Raise e => Raise e
  end.
Proof.
  unfold scope_request, rename_ops.
  apply result_map_rename with (h := fun item => (f (fst item), snd item)).
  intros item. apply scope_op_rename.
Qed.

Lemma rewritten_op_refl (relate : dict -> dict -> Prop) (item : string * json) :
  (forall body, relate body body) -> rewritten_op relate item item.
Proof.
  intros Hrefl. unfold rewritten_op. split; [reflexivity|].
  destruct (snd item); try reflexivity.
  eexists. split; [reflexivity | apply Hrefl].
Qed.

Lemma kept_body_refl (body : dict) : kept_body body body.
Proof.
  unfold kept_body. repeat split; intros; assumption || reflexivity.
Qed.

Lemma Forall2_same {A : Type} (R : A -> A -> Prop) (l : list A) :
  (forall a, R a a) -> Forall2 R l l.
Proof.
  intros Hrefl. induction l; constructor; auto.
Qed.

Lemma scope_requests_relations (resolved_tab_id : string) (requests out : list dict) :
  truthy resolved_tab_id = true ->
  scope_requests resolved_tab_id requests = Ok out ->
  Forall2 (Forall2 (rewritten_op (scoped_body resolved_tab_id))) requests out /\
  Forall2 (Forall2 (rewritten_op kept_body)) requests out.
Proof.
  unfold scope_requests. intros ->. intros Hmap.
  apply result_map_pointwise in Hmap.
  induction Hmap as [|req req' requests out Hreq _ [IH1 IH2]].
  - split; constructor.
  - unfold scope_request in Hreq. apply result_map_pointwise in Hreq.
    split; constructor; try assumption.
    + induction Hreq as [|item item' req req' Hitem _ IH]; constructor; [|exact IH].
      now apply scope_op_relations in Hitem.
    + induction Hreq as [|item item' req req' Hitem _ IH]; constructor; [|exact IH].
      now apply scope_op_relations in Hitem.
Qed.

Lemma scope_requests_returns (resolved_tab_id : string) (requests : list dict) :
  batch_well_shaped requests = true ->
  exists out, scope_requests resolved_tab_id requests = Ok out.
Proof.
  unfold scope_requests, batch_well_shaped. intros Hshape.
  destruct (truthy resolved_tab_id); [|now eexists].
  apply result_map_returns. intros req Hreq.
  rewrite forallb_forall in Hshape. specialize (Hshape req Hreq).
  apply result_map_returns. intros item Hitem.
  rewrite forallb_forall in Hshape.
  apply scope_op_returns. now apply Hshape.
Qed.

Lemma scope_requests_scoped (resolved_tab_id : string) (requests : list dict) :
  batch_explicitly_scoped requests = true ->
  scope_requests resolved_tab_id requests = Ok requests.
Proof.
  unfold scope_requests, batch_explicitly_scoped. intros Hscoped.
  destruct (truthy resolved_tab_id); [|reflexivity].
  apply result_map_same. intros req Hreq.
  rewrite forallb_forall in Hscoped. specialize (Hscoped req Hreq).
  apply result_map_same. intros item Hitem.
  rewrite forallb_forall in Hscoped.
  apply scope_op_scoped. now apply Hscoped.
Qed.

Lemma scope_requests_rename (resolved_tab_id : string) (f : string -> string)
      (requests : list dict) :
  scope_requests resolved_tab_id (map (rename_ops f) requests) =
  match scope_requests resolved_tab_id requests with
  | Ok out => Ok (map (rename_ops f) out)
  | Raise e => Raise e
  end.
Proof.
  unfold scope_requests.
  destruct (truthy resolved_tab_id); [|reflexivity].
  apply result_map_rename. intros req. apply scope_request_rename.
Qed.

(** The only exception the rewrite raises is the [TypeError]. *)
Lemma result_map_raises {A B : Type} (f : A -> result B) (l : list A) (e : error) :
  result_map f l = Raise e -> exists a, In a l /\ f a = Raise e.
Proof.
  induction l as [|a l IH]; simpl; [discriminate|].
  destruct (f a) as [b|e'] eqn:Hfa; simpl.
  - destruct (result_map f l) as [bs|e'']; simpl; [discriminate|].
    intros H. injection H as ->.
    destruct (IH eq_refl) as [a' [Hin Ha']]. exists a'. split; [now right | exact Ha'].
  - intros H. injection H as ->. exists a. split; [now left | exact Hfa].
Qed.

Lemma inject_key_raises_TypeError (resolved_tab_id : string) (op_body : dict) (key : string)
      (e : error) :
  inject_key resolved_tab_id op_body key = Raise e -> e = TypeError.
Proof.
  unfold inject_key.
  destruct (dict_get key op_body) as [v|]; [|discriminate].
  destruct v; simpl;
    try (destruct (is_substring _ _));
    try (destruct (existsb _ _));
    try (destruct (dict_has _ _));
    intros H; try discriminate; now injection H as <-.
Qed.

Lemma inject_keys_raises_TypeError (resolved_tab_id : string) (keys : list string) (e : error) :
  forall op_body,
    inject_keys resolved_tab_id op_body keys = Raise e -> e = TypeError.
Proof.
  induction keys as [|key rest IH]; intros op_body; simpl; [discriminate|].
  destruct (inject_key resolved_tab_id op_body key) as [body1|e'] eqn:Hkey; simpl.
  - apply IH.
  - intros H. injection H as ->. now apply inject_key_raises_TypeError in Hkey.
Qed.

Lemma scope_op_raises_TypeError (resolved_tab_id : string) (item : string * json) (e : error) :
  scope_op resolved_tab_id item = Raise e -> e = TypeError.
Proof.
  destruct item as [op_name op_body]. unfold scope_op.
  destruct op_body; try discriminate.
  destruct (inject_keys resolved_tab_id fields scope_keys) as [body1|e'] eqn:Hkeys;
    cbn [result_bind]; [discriminate|].
  intros H. injection H as ->. now apply inject_keys_raises_TypeError in Hkeys.
Qed.

Lemma scope_requests_raises_TypeError (resolved_tab_id : string) (requests : list dict)
      (e : error) :
  scope_requests resolved_tab_id requests = Raise e -> e = TypeError.
Proof.
  unfold scope_requests.
  destruct (truthy resolved_tab_id); [|discriminate].
  intros Hraise.
  apply result_map_raises in Hraise. destruct Hraise as [req [_ Hreq]].
  apply result_map_raises in Hreq. destruct Hreq as [item [_ Hitem]].
  now apply scope_op_raises_TypeError in Hitem.
Qed.

(** ** The offset calculator *)

Lemma _body_end_index_empty (body : Body) :
  content body = [] -> _body_end_index body = 1%Z.
Proof.
  unfold _body_end_index. now intros ->.
Qed.

Lemma _body_end_index_last (body : Body) (init : list StructuralElement) (last : StructuralElement) :
  content body = init ++ [last] ->
  _body_end_index body = (default_to 1 (endIndex last) - 1)%Z.
Proof.
  unfold _body_end_index. intros ->.
  now rewrite rev_app_distr.
Qed.

(** ** The resolver and the tools *)

Section ServerProperties.

Variable lower : string -> string.

Lemma find_entry_find (flat : list TabEntry) (tab_id tab_title : string) :
  find_entry lower flat tab_id tab_title =
  option_map e_tab (find (entry_matches lower tab_id tab_title) flat).
Proof.
  induction flat as [|entry rest IH]; simpl.
  - reflexivity.
  - unfold entry_matches at 1.
    destruct (truthy tab_id && String.eqb (e_tabId entry) tab_id); [reflexivity|].
    destruct (truthy tab_title && String.eqb (lower (e_title entry)) (lower tab_title));
      [reflexivity | exact IH].
Qed.

Lemma find_entry_none (flat : list TabEntry) (tab_id tab_title : string) :
  (forall entry, In entry flat -> entry_matches lower tab_id tab_title entry = false) ->
  find_entry lower flat tab_id tab_title = None.
Proof.
  intros Hnone. rewrite find_entry_find.
  destruct (find _ flat) as [entry|] eqn:Hfind; [|reflexivity].
  apply find_some in Hfind. destruct Hfind as [Hin Hmatch].
  rewrite (Hnone entry Hin) in Hmatch. discriminate.
Qed.

(** With an identifier and no title, the first entry with that identifier. *)
Lemma find_entry_by_id (flat : list TabEntry) (tab_id : string) :
  tab_id <> "" ->
  find_entry lower flat tab_id "" =
  option_map e_tab (find (fun entry => String.eqb (e_tabId entry) tab_id) flat).
Proof.
  intros Hid. apply truthy_true_iff in Hid.
  induction flat as [|entry rest IH]; simpl.
  - reflexivity.
  - rewrite Hid. simpl.
    destruct (String.eqb (e_tabId entry) tab_id); [reflexivity | exact IH].
Qed.

(** With a title and no identifier, the first entry whose title is the
    same up to case. *)
Lemma find_entry_by_title (flat : list TabEntry) (tab_title : string) :
  tab_title <> "" ->
  find_entry lower flat "" tab_title =
  option_map e_tab
    (find (fun entry => String.eqb (lower (e_title entry)) (lower tab_title)) flat).
Proof.
  intros Htitle. apply truthy_true_iff in Htitle.
  induction flat as [|entry rest IH]; simpl.
  - reflexivity.
  - rewrite Htitle. simpl.
    destruct (String.eqb (lower (e_title entry)) (lower tab_title)); [reflexivity | exact IH].
Qed.

Lemma _resolve_tab_not_found (doc : Document) (tab_id tab_title : string) :
  tabs doc <> [] ->
  tab_id <> "" \/ tab_title <> "" ->
  (forall entry, In entry (_flatten_tabs (tabs doc) 0) ->
                 entry_matches lower tab_id tab_title entry = false) ->
  _resolve_tab lower doc tab_id tab_title = Raise (TabNotFound tab_id tab_title).
Proof.
  intros Htabs Hasked Hnone.
  unfold _resolve_tab, _find_tab.
  destruct (tabs doc) as [|first rest] eqn:Hdoc; [contradiction|].
  rewrite (find_entry_none _ _ _ Hnone).
  assert (Htruthy : truthy tab_id || truthy tab_title = true).
  { destruct Hasked as [H|H]; apply truthy_true_iff in H; rewrite H;
      [reflexivity | apply orb_true_r]. }
  now rewrite Htruthy.
Qed.

Lemma asked_truthy (tab_id tab_title : string) :
  tab_id <> "" \/ tab_title <> "" -> truthy tab_id || truthy tab_title = true.
Proof.
  intros [H|H]; apply truthy_true_iff in H; rewrite H; [reflexivity | apply orb_true_r].
Qed.

(** *** A failed resolution stops the tool after the fetch *)

Lemma read_document_raises (docs : Service) (document_id tab_id tab_title : string)
      (doc : Document) (e : error) :
  documents_get docs document_id = Returned doc ->
  tab_id <> "" \/ tab_title <> "" ->
  _resolve_tab lower doc tab_id tab_title = Raise e ->
  run docs (read_document lower document_id tab_id tab_title) =
  ([GetDocument document_id], Raise e).
Proof.
  intros Hget Hasked Hresolve.
  unfold run, read_document, bind, _get_doc_with_tabs, execute, lift.
  rewrite Hget. cbn [app].
  rewrite (asked_truthy Hasked), Hresolve. reflexivity.
Qed.

Lemma append_text_raises (docs : Service) (document_id text tab_id tab_title : string)
      (doc : Document) (e : error) :
  documents_get docs document_id = Returned doc ->
  _resolve_tab lower doc tab_id tab_title = Raise e ->
  run docs (append_text lower document_id text tab_id tab_title) =
  ([GetDocument document_id], Raise e).
Proof.
  intros Hget Hresolve.
  unfold run, append_text, bind, _get_doc_with_tabs, execute, lift.
  rewrite Hget. cbn [app]. rewrite Hresolve. reflexivity.
Qed.

Lemma resolve_scope_by_title (docs : Service) (log : list call)
      (document_id tab_title : string) :
  tab_title <> "" ->
  resolve_scope lower document_id "" tab_title docs log =
  (log ++ [GetDocument document_id],
   match documents_get docs document_id with
   | Returned doc =>
       match _resolve_tab lower doc "" tab_title with
       | Ok resolved => Ok (snd resolved)
       | Raise e => Raise e
       end
   | Failed diagnostic => Raise (RemoteError diagnostic)
   end).
Proof.
  intros Htitle. apply truthy_true_iff in Htitle.
  unfold resolve_scope, bind, _get_doc_with_tabs, execute, lift, ret.
  cbn [truthy negb andb]. rewrite Htitle.
  destruct (documents_get docs document_id) as [doc|diagnostic]; [|reflexivity].
  destruct (_resolve_tab lower doc "" tab_title) as [[body resolved_tab_id]|e]; reflexivity.
Qed.

Lemma resolve_scope_by_id (document_id tab_id tab_title : string) :
  tab_id <> "" ->
  resolve_scope lower document_id tab_id tab_title = ret tab_id.
Proof.
  intros Hid. apply truthy_true_iff in Hid.
  unfold resolve_scope. now rewrite Hid.
Qed.

Lemma resolve_scope_unscoped (document_id : string) :
  resolve_scope lower document_id "" "" = ret "".
Proof.
  reflexivity.
Qed.

Lemma insert_text_raises (docs : Service) (document_id text : string) (index : Z)
      (tab_title : string) (doc : Document) (e : error) :
  documents_get docs document_id = Returned doc ->
  tab_title <> "" ->
  _resolve_tab lower doc "" tab_title = Raise e ->
  run docs (insert_text lower document_id text index "" tab_title) =
  ([GetDocument document_id], Raise e).
Proof.
  intros Hget Htitle Hresolve. apply truthy_true_iff in Htitle.
  unfold run, insert_text, bind, _get_doc_with_tabs, execute, lift.
  cbn [truthy]. rewrite Htitle, Hget. cbn [app]. rewrite Hresolve. reflexivity.
Qed.

Lemma replace_text_raises (docs : Service) (document_id find replace_with : string)
      (match_case : bool) (tab_title : string) (doc : Document) (e : error) :
  documents_get docs document_id = Returned doc ->
  tab_title <> "" ->
  _resolve_tab lower doc "" tab_title = Raise e ->
  run docs (replace_text lower document_id find replace_with match_case "" tab_title) =
  ([GetDocument document_id], Raise e).
Proof.
  intros Hget Htitle Hresolve.
  unfold run, replace_text, bind.
  rewrite (resolve_scope_by_title docs [] document_id Htitle), Hget, Hresolve.
  reflexivity.
Qed.

Lemma batch_update_raises (docs : Service) (document_id : string) (requests : list dict)
      (tab_title : string) (doc : Document) (e : error) :
  documents_get docs document_id = Returned doc ->
  tab_title <> "" ->
  _resolve_tab lower doc "" tab_title = Raise e ->
  run docs (batch_update lower document_id requests "" tab_title) =
  ([GetDocument document_id], Raise e).
Proof.
  intros Hget Htitle Hresolve.
  unfold run, batch_update, bind.
  rewrite (resolve_scope_by_title docs [] document_id Htitle), Hget, Hresolve.
  reflexivity.
Qed.

(** C2 (as amended). In a document that has tabs, a request with a
    non-empty identifier or title that no flattened entry matches makes
    the resolver raise the tab-not-found error with both requested
    values, and every tool that asked for the tab stops after the fetch:
    no edit is sent.  In a document without tabs the resolver raises
    nothing: it returns the legacy body and the empty identifier. *)
Theorem C2_tab_not_found_when_document_has_tabs
        (doc : Document) (tab_id tab_title : string) :
  (tabs doc = [] ->
   _resolve_tab lower doc tab_id tab_title =
   Ok (default_to empty_body (doc_body doc), "")) /\
  (tabs doc <> [] ->
   tab_id <> "" \/ tab_title <> "" ->
   (forall entry, In entry (_flatten_tabs (tabs doc) 0) ->
                  entry_matches lower tab_id tab_title entry = false) ->
   _resolve_tab lower doc tab_id tab_title = Raise (TabNotFound tab_id tab_title) /\
   (forall docs document_id,
       documents_get docs document_id = Returned doc ->
       run docs (read_document lower document_id tab_id tab_title) =
       ([GetDocument document_id], Raise (TabNotFound tab_id tab_title)) /\
       (forall text,
           run docs (append_text lower document_id text tab_id tab_title) =
           ([GetDocument document_id], Raise (TabNotFound tab_id tab_title))) /\
       (tab_id = "" ->
        (forall text index,
            run docs (insert_text lower document_id text index tab_id tab_title) =
            ([GetDocument document_id], Raise (TabNotFound tab_id tab_title))) /\
        (forall find replace_with match_case,
            run docs (replace_text lower document_id find replace_with match_case
                                   tab_id tab_title) =
            ([GetDocument document_id], Raise (TabNotFound tab_id tab_title))) /\
        (forall requests,
            run docs (batch_update lower document_id requests tab_id tab_title) =
            ([GetDocument document_id], Raise (TabNotFound tab_id tab_title)))))).
Proof.
  split.
  { intros Hnone. unfold _resolve_tab. now rewrite Hnone. }
  intros Htabs Hasked Hnone.
  pose proof (_resolve_tab_not_found doc Htabs Hasked Hnone) as Hraise.
  split; [exact Hraise|].
  intros docs document_id Hget.
  split; [now apply read_document_raises with (doc := doc)|].
  split; [intros text; now apply append_text_raises with (doc := doc)|].
  intros ->.
  assert (Htitle : tab_title <> "") by (destruct Hasked as [H|H]; [now contradiction H | exact H]).
  split; [|split].
  - intros text index. now apply insert_text_raises with (doc := doc).
  - intros find replace_with match_case. now apply replace_text_raises with (doc := doc).
  - intros requests. now apply batch_update_raises with (doc := doc).
Qed.

(** *** What [append_text] sends *)

Lemma append_text_sends (docs : Service) (document_id text tab_id tab_title : string)
      (doc : Document) (body : Body) (resolved_tab_id : string) :
  documents_get docs document_id = Returned doc ->
  _resolve_tab lower doc tab_id tab_title = Ok (body, resolved_tab_id) ->
  fst (run docs (append_text lower document_id text tab_id tab_title)) =
  [GetDocument document_id;
   BatchUpdate document_id
     [insertText_request
        (scoped_location (_body_end_index body) resolved_tab_id)
        (if (_body_end_index body >? 1)%Z then (nl ++ text)%string else text)]].
Proof.
  intros Hget Hresolve.
  unfold run, append_text, bind, _get_doc_with_tabs, batchUpdate, execute, lift, ret.
  rewrite Hget. cbn [app]. rewrite Hresolve. cbv zeta.
  unfold scoped_location.
  destruct (truthy resolved_tab_id);
    destruct (documents_batchUpdate docs document_id _); reflexivity.
Qed.

(** C5. The append offset is 1 for a body without structural elements and
    otherwise the end index of its last element minus one; appending a
    non-empty text at an offset above 1 inserts it behind exactly one
    newline, at that offset; an empty body gets the text as it is, at
    offset 1; a body ending at 50 gets ["\nhi"] at 49 for the text
    ["hi"]. *)
Theorem C5_append_offset_and_leading_newline :
  (forall body, content body = [] -> _body_end_index body = 1%Z) /\
  (forall body init last e,
      content body = init ++ [last] -> endIndex last = Some e ->
      _body_end_index body = (e - 1)%Z) /\
  (forall docs document_id text tab_id tab_title doc body resolved_tab_id,
      documents_get docs document_id = Returned doc ->
      _resolve_tab lower doc tab_id tab_title = Ok (body, resolved_tab_id) ->
      ((_body_end_index body > 1)%Z -> text <> "" ->
       fst (run docs (append_text lower document_id text tab_id tab_title)) =
       [GetDocument document_id;
        BatchUpdate document_id
          [[("insertText",
             JObj [("location",
                    JObj (scoped_location (_body_end_index body) resolved_tab_id));
                   ("text", JStr (nl ++ text)%string)])]]]) /\
      (content body = [] ->
       fst (run docs (append_text lower document_id text tab_id tab_title)) =
       [GetDocument document_id;
        BatchUpdate document_id
          [[("insertText",
             JObj [("location", JObj (scoped_location 1 resolved_tab_id));
                   ("text", JStr text)])]]]) /\
      (forall init last,
          content body = init ++ [last] -> endIndex last = Some 50%Z -> text = "hi" ->
          fst (run docs (append_text lower document_id text tab_id tab_title)) =
          [GetDocument document_id;
           BatchUpdate document_id
             [[("insertText",
                JObj [("location", JObj (scoped_location 49 resolved_tab_id));
                      ("text", JStr (nl ++ "hi")%string)])]]])).
Proof.
  split; [exact _body_end_index_empty|].
  split.
  { intros body init last e Hcontent Hend.
    rewrite (_body_end_index_last body init last Hcontent), Hend. reflexivity. }
  intros docs document_id text tab_id tab_title doc body resolved_tab_id Hget Hresolve.
  pose proof (append_text_sends docs document_id text tab_id tab_title Hget Hresolve) as Hsent.
  split; [|split].
  - intros Hidx _. rewrite Hsent.
    apply Z.gtb_gt in Hidx. now rewrite Hidx.
  - intros Hempty. rewrite Hsent.
    now rewrite (_body_end_index_empty body Hempty).
  - intros init last Hcontent Hend ->. rewrite Hsent.
    rewrite (_body_end_index_last body init last Hcontent), Hend. reflexivity.
Qed.

(** C10. A body that has structural elements and whose last element
    records no end index has append offset 0, the default end index 1
    minus one (a body without elements has offset 1); [append_text] then
    sends the text without a leading newline, at index 0. *)
Theorem C10_missing_end_index_gives_offset_zero
        (body : Body) (init : list StructuralElement) (last : StructuralElement) :
  content body = init ++ [last] ->
  endIndex last = None ->
  _body_end_index body = 0%Z /\
  _body_end_index (mkBody []) = 1%Z /\
  (forall docs document_id text tab_id tab_title doc resolved_tab_id,
      documents_get docs document_id = Returned doc ->
      _resolve_tab lower doc tab_id tab_title = Ok (body, resolved_tab_id) ->
      fst (run docs (append_text lower document_id text tab_id tab_title)) =
      [GetDocument document_id;
       BatchUpdate document_id
         [[("insertText",
            JObj [("location", JObj (scoped_location 0 resolved_tab_id));
                  ("text", JStr text)])]]]).
Proof.
  intros Hcontent Hend.
  assert (Hzero : _body_end_index body = 0%Z).
  { rewrite (_body_end_index_last body init last Hcontent), Hend. reflexivity. }
  split; [exact Hzero|].
  split; [reflexivity|].
  intros docs document_id text tab_id tab_title doc resolved_tab_id Hget Hresolve.
  rewrite (append_text_sends docs document_id text tab_id tab_title Hget Hresolve).
  now rewrite Hzero.
Qed.

(** *** Reading every tab *)

Lemma read_section_appends (sections : list string) (entry : TabEntry) :
  read_section sections entry = sections ++ [tab_section entry].
Proof.
  reflexivity.
Qed.

(** C8. For a document that has tabs, [read_document] without identifier
    and title fetches the document once and returns the document title
    section followed by one section per flattened entry, in pre-order,
    each made of a header of depth plus two number signs and the
    extractor's rendering of that tab's own body, joined by the
    horizontal-rule separator. *)
Theorem C8_read_all_tabs (docs : Service) (document_id : string) (doc : Document) :
  documents_get docs document_id = Returned doc ->
  tabs doc <> [] ->
  run docs (read_document lower document_id "" "") =
  ([GetDocument document_id],
   Ok (String.concat section_separator
         (title_section doc :: map tab_section (_flatten_tabs (tabs doc) 0)))) /\
  section_separator = (nl ++ nl ++ "---" ++ nl ++ nl)%string /\
  (forall entry,
      tab_section entry =
      (str_repeat "#" (e_depth entry + 2) ++ " [" ++ e_title entry ++ "]" ++ nl ++ nl ++
       _extract_text_from_body (tab_body (e_tab entry)))%string).
Proof.
  intros Hget Htabs.
  split; [|split; reflexivity].
  unfold run, read_document, bind, _get_doc_with_tabs, execute, ret.
  rewrite Hget. cbn [app truthy orb].
  destruct (tabs doc) as [|first rest] eqn:Hdoc; [contradiction|].
  cbv zeta.
  rewrite (fold_left_step_append read_section (fun entry => [tab_section entry])
                                 read_section_appends).
  rewrite flat_map_singleton.
  reflexivity.
Qed.

(** *** Tools called with an identifier, a title, or neither *)

Ltac unfold_tool :=
  unfold run, insert_text, replace_text, batch_update, resolve_scope,
         bind, _get_doc_with_tabs, batchUpdate, execute, lift, ret;
  cbn [truthy negb andb orb app fst snd].




Lemma batch_update_by_id (docs : Service) (document_id : string) (requests : list dict)
      (tab_id tab_title : string) :
  tab_id <> "" ->
  fst (run docs (batch_update lower document_id requests tab_id tab_title)) =
  match scope_requests tab_id requests with
  | Ok out => [BatchUpdate document_id out]
  | Raise _ => []
  end /\
  is_tab_not_found (snd (run docs (batch_update lower document_id requests tab_id tab_title)))
  = false.
Proof.
  intros Hid.
  unfold run, batch_update. rewrite (resolve_scope_by_id document_id tab_title Hid).
  unfold bind, batchUpdate, execute, lift, ret.
  destruct (scope_requests tab_id requests) as [out|e] eqn:Hscope.
  - cbn [app]. destruct (documents_batchUpdate docs document_id out); split; reflexivity.
  - split; [reflexivity|].
    now rewrite (scope_requests_raises_TypeError _ _ Hscope).
Qed.





(** Each item of a rewritten request stands to the item at its place as
    [direct_fields_scoped] says. *)
Lemma scope_op_direct_fields (resolved_tab_id : string) (item item' : string * json) :
  scope_op resolved_tab_id item = Ok item' ->
  rewritten_op (direct_fields_scoped resolved_tab_id) item item'.
Proof.
  intros Hitem.
  destruct (scope_op_relations _ _ Hitem) as [[Hname Hscoped] [_ Hkept]].
  split; [exact Hname|].
  destruct (snd item) as [| | | | | |body]; try exact Hscoped.
  destruct Hscoped as [body' [Hbody' [Hfields Hcriteria]]].
  destruct Hkept as [body'' [Hbody'' [_ [_ Hother]]]].
  rewrite Hbody' in Hbody''. injection Hbody'' as <-.
  exists body'. split; [exact Hbody'|].
  split; [|split].
  - intros key target [-> | [-> | ->]]; apply Hfields; unfold scope_keys; simpl; auto.
  - exact Hcriteria.
  - intros key Hlocation Hrange Hinsertion. apply Hother.
    unfold scope_keys. simpl. intros [H|[H|[H|[]]]]; symmetry in H; contradiction.
Qed.

Lemma scope_requests_direct_fields (resolved_tab_id : string) (requests out : list dict) :
  truthy resolved_tab_id = true ->
  scope_requests resolved_tab_id requests = Ok out ->
  Forall2 (Forall2 (rewritten_op (direct_fields_scoped resolved_tab_id))) requests out.
Proof.
  unfold scope_requests. intros ->. intros Hmap.
  apply result_map_pointwise in Hmap.
  induction Hmap as [|req req' requests out Hreq _ IH]; constructor; [|exact IH].
  unfold scope_request in Hreq. apply result_map_pointwise in Hreq.
  induction Hreq as [|item item' req req' Hitem _ IHreq]; constructor; [|exact IHreq].
  now apply scope_op_direct_fields.
Qed.

(** C3 (as amended). With a non-empty resolved identifier the rewrite of
    a batch returns a batch whenever every ["location"], ["range"] and
    ["insertionLocation"] field that stands directly in an operation body
    is an object. Whenever it returns one, every request keeps its
    operations in place, and in every operation body: each field named
    ["location"], ["range"] or ["insertionLocation"] that is an object
    without a ["tabId"] has gained [("tabId", identifier)]; a body with
    ["containsText"] and no ["tabsCriteria"] has gained the criterion
    [{"tabIds": [identifier]}]; and the value under every other key is
    the value it was, so that a field with one of the three names below
    that level is not reached. The rewrite does not depend on the names
    of the operations, and [batch_update] sends the rewritten batch. *)
Theorem C3_scope_rewrite_injects_direct_fields
  (resolved_tab_id : string) (requests : list dict) :
  resolved_tab_id <> "" ->
  (direct_fields_are_objects requests = true ->
   exists out, scope_requests resolved_tab_id requests = Ok out) /\
  (forall out,
      scope_requests resolved_tab_id requests = Ok out ->
      Forall2 (Forall2 (rewritten_op (direct_fields_scoped resolved_tab_id))) requests out /\
      forall docs document_id tab_title,
        fst (run docs (batch_update lower document_id requests resolved_tab_id tab_title)) =
        [BatchUpdate document_id out]) /\
  (forall f,
      scope_requests resolved_tab_id (map (rename_ops f) requests) =
      match scope_requests resolved_tab_id requests with
      | Ok out => Ok (map (rename_ops f) out)
      | Raise e => Raise e
      end).
Proof.
  intros Hid.
  split; [exact (scope_requests_returns resolved_tab_id requests)|].
  split; [|intros f; apply scope_requests_rename].
  intros out Hout. split.
  - apply truthy_true_iff in Hid.
    now apply (scope_requests_direct_fields resolved_tab_id requests Hid Hout).
  - intros docs document_id tab_title.
    destruct (batch_update_by_id docs document_id requests tab_title Hid) as [Hsent _].
    now rewrite Hsent, Hout.
Qed.

(** C4. The rewrite with the empty identifier returns the batch as it is;
    with any identifier, a batch whose fields all carry an explicit
    ["tabId"] and whose text matches all carry a ["tabsCriteria"] is
    returned as it is; and whenever the rewrite returns a batch, every
    field that had a ["tabId"], a ["tabsCriteria"] that was present and
    every other key of every operation body has the value it had. *)
Theorem C4_scope_rewrite_keeps_explicit_scopes (requests : list dict) :
  scope_requests "" requests = Ok requests /\
  (forall resolved_tab_id,
      batch_explicitly_scoped requests = true ->
      scope_requests resolved_tab_id requests = Ok requests) /\
  (forall resolved_tab_id out,
      scope_requests resolved_tab_id requests = Ok out ->
      Forall2 (Forall2 (rewritten_op kept_body)) requests out) /\
  (forall docs document_id,
      fst (run docs (batch_update lower document_id requests "" "")) =
      [BatchUpdate document_id requests]).
Proof.
  split; [reflexivity|].
  split; [intros resolved_tab_id; apply scope_requests_scoped|].
  split.
  - intros resolved_tab_id out Hout.
    destruct (truthy resolved_tab_id) eqn:Htruthy.
    + now apply (scope_requests_relations resolved_tab_id requests Htruthy Hout).
    + unfold scope_requests in Hout. rewrite Htruthy in Hout. injection Hout as <-.
      apply Forall2_same. intros req.
      apply Forall2_same. intros item.
      apply rewritten_op_refl. exact kept_body_refl.
  - intros docs document_id. unfold_tool.
    unfold scope_requests. cbn [truthy].
    now destruct (documents_batchUpdate docs document_id requests).
Qed.

End ServerProperties.

(** ** Which tab the resolver selects *)

Lemma flatten_tab_entries (tab : Tab) :
  forall depth entry,
    In entry (flatten_tab depth tab) ->
    entry = tab_entry (e_depth entry) (e_tab entry).
Proof.
  induction tab as [props children dt IH] using Tab_forest_ind.
  intros depth entry Hin.
  rewrite flatten_tab_unfold in Hin.
  destruct Hin as [<-|Hin]; [reflexivity|].
  rewrite _flatten_tabs_flat_map in Hin.
  apply in_flat_map in Hin. destruct Hin as [child [Hchild Hin]].
  rewrite Forall_forall in IH.
  exact (IH child Hchild _ _ Hin).
Qed.

Lemma _flatten_tabs_entries (tabs : list Tab) (depth : nat) (entry : TabEntry) :
  In entry (_flatten_tabs tabs depth) ->
  entry = tab_entry (e_depth entry) (e_tab entry).
Proof.
  rewrite _flatten_tabs_flat_map. intros Hin.
  apply in_flat_map in Hin. destruct Hin as [tab [_ Hin]].
  exact (flatten_tab_entries _ _ _ Hin).
Qed.

Section Selection.

Variable lower : string -> string.

(** In a document that has tabs, a request with an identifier or a title
    selects the first entry, in pre-order, that passes one of the two
    tests of the loop. *)
Lemma _resolve_tab_selects (doc : Document) (tab_id tab_title : string) :
  tabs doc <> [] ->
  tab_id <> "" \/ tab_title <> "" ->
  _resolve_tab lower doc tab_id tab_title =
  match find (entry_matches lower tab_id tab_title) (_flatten_tabs (tabs doc) 0) with
  | Some entry => Ok (tab_body (e_tab entry), e_tabId entry)
  | None => Raise (TabNotFound tab_id tab_title)
  end.
Proof.
  intros Htabs Hasked.
  unfold _resolve_tab, _find_tab.
  destruct (tabs doc) as [|first rest] eqn:Hdoc; [contradiction|].
  rewrite (asked_truthy Hasked), find_entry_find.
  destruct (find _ _) as [entry|] eqn:Hfind; [|reflexivity].
  apply find_some in Hfind. destruct Hfind as [Hin _].
  apply _flatten_tabs_entries in Hin.
  assert (Hid : e_tabId entry =
                default_to "" (tabId (default_to empty_props (tabProperties (e_tab entry))))).
  { rewrite Hin at 1. reflexivity. }
  cbn [option_map]. rewrite Hid. reflexivity.
Qed.

(** An identifier alone selects the first entry with that identifier,
    compared exactly. *)
Lemma _resolve_tab_by_id (doc : Document) (tab_id : string) :
  tabs doc <> [] ->
  tab_id <> "" ->
  _resolve_tab lower doc tab_id "" =
  match find (fun entry => String.eqb (e_tabId entry) tab_id) (_flatten_tabs (tabs doc) 0) with
  | Some entry => Ok (tab_body (e_tab entry), e_tabId entry)
  | None => Raise (TabNotFound tab_id "")
  end.
Proof.
  intros Htabs Hid.
  rewrite (_resolve_tab_selects doc Htabs (or_introl Hid)).
  apply truthy_true_iff in Hid.
  rewrite (find_pointwise (entry_matches lower tab_id "")
                    (fun entry => String.eqb (e_tabId entry) tab_id)); [reflexivity|].
  intros entry. unfold entry_matches. rewrite Hid. cbn [truthy andb].
  now rewrite orb_false_r.
Qed.

(** A title alone selects the first entry whose title is the same up to
    case. *)
Lemma _resolve_tab_by_title (doc : Document) (tab_title : string) :
  tabs doc <> [] ->
  tab_title <> "" ->
  _resolve_tab lower doc "" tab_title =
  match find (fun entry => String.eqb (lower (e_title entry)) (lower tab_title))
             (_flatten_tabs (tabs doc) 0) with
  | Some entry => Ok (tab_body (e_tab entry), e_tabId entry)
  | None => Raise (TabNotFound "" tab_title)
  end.
Proof.
  intros Htabs Htitle.
  rewrite (_resolve_tab_selects doc Htabs (or_intror Htitle)).
  apply truthy_true_iff in Htitle.
  rewrite (find_pointwise (entry_matches lower "" tab_title)
                    (fun entry => String.eqb (lower (e_title entry)) (lower tab_title)));
    [reflexivity|].
  intros entry. unfold entry_matches. rewrite Htitle. reflexivity.
Qed.

(** [str.lower] maps no other string to the lower case of the empty one. *)
Hypothesis lower_of_empty : forall s, lower s = lower "" -> s = "".

(** A tab that [_find_tab] returns has tab properties: as a dict it is not
    empty, and [if not tab] tests for [None] only. *)
Lemma find_entry_has_properties (tabs : list Tab) (tab_id tab_title : string) (tab : Tab) :
  _find_tab lower tabs tab_id tab_title = Some tab ->
  tabProperties tab <> None.
Proof.
  unfold _find_tab. rewrite find_entry_find.
  destruct (find _ _) as [entry|] eqn:Hfind; [|discriminate].
  apply find_some in Hfind. destruct Hfind as [Hin Hmatch].
  apply _flatten_tabs_entries in Hin.
  intros H. injection H as <-. intros Hnone.
  rewrite Hin in Hmatch. unfold entry_matches, tab_entry in Hmatch.
  rewrite Hnone in Hmatch. cbn [default_to empty_props tabId tp_title e_tabId e_title] in Hmatch.
  apply orb_true_iff in Hmatch.
  destruct Hmatch as [Hm|Hm]; apply andb_true_iff in Hm; destruct Hm as [Htruthy Heq].
  - apply String.eqb_eq in Heq. subst tab_id. discriminate.
  - apply String.eqb_eq in Heq. symmetry in Heq. apply lower_of_empty in Heq.
    subst tab_title. discriminate.
Qed.

End Selection.

(** ** The model on the sample inputs *)

Lemma str_lower_of_empty (s : string) : str_lower s = str_lower "" -> s = "".
Proof.
  destruct s; [reflexivity | discriminate].
Qed.

(** The tests of the specification. *)
Example heading_2_renders :
  _extract_text_from_body (mkBody [text_paragraph (Some "HEADING_2") ("Intro" ++ nl) None])
  = "## Intro".
Proof. reflexivity. Qed.

Example blank_paragraph_is_kept :
  _extract_text_from_body
    (mkBody [ text_paragraph None ("a" ++ nl) None;
              text_paragraph None nl None;
              text_paragraph (Some "HEADING_1") nl None;
              mkStructuralElement None (Some 9%Z);
              text_paragraph None ("b" ++ nl) None ])
  = ("a" ++ nl ++ nl ++ "b")%string.
Proof. reflexivity. Qed.

Example default_tab_is_the_first (lower : string -> string) :
  _resolve_tab lower notes_doc "" "" = Ok (body_ending_at_50, "t1").
Proof. reflexivity. Qed.

Example title_is_matched_without_case :
  _resolve_tab str_lower notes_doc "" "notes" = Ok (body_ending_at_50, "t1").
Proof. reflexivity. Qed.

Example unknown_identifier_is_not_found :
  _resolve_tab str_lower notes_doc "zzz" "" = Raise (TabNotFound "zzz" "").
Proof. reflexivity. Qed.

Example injection_of_tab123 :
  scope_requests "tab123" [unscoped_insert] =
  Ok [[("insertText",
        JObj [("location", JObj [("index", JInt 1); ("tabId", JStr "tab123")]);
              ("text", JStr "x")])]].
Proof. reflexivity. Qed.

Example non_object_location_raises :
  scope_requests "tab123" [[("insertText", JObj [("location", JInt 5)])]] = Raise TypeError.
Proof. reflexivity. Qed.

(** The walk stops at the fields of the operation body: an object further
    down is sent as it is. *)
Example field_below_operation_body_is_kept :
  scope_requests "tab123"
    [[("updateTableCellStyle", JObj [("tableRange", JObj [("range", JObj [("startIndex", JInt 1)])])])]]
  = Ok [[("updateTableCellStyle", JObj [("tableRange", JObj [("range", JObj [("startIndex", JInt 1)])])])]].
Proof. reflexivity. Qed.

(** C1 (the code departs from the claim). With the identifier ["t2"] and
    the title ["Notes"] both supplied, in a document whose tabs t1 and t2
    are both titled Notes, the resolver returns t1, the first entry that
    passes the title test, although the first entry whose identifier is
    ["t2"] is the second tab; [append_text] then writes to t1, where
    [insert_text] with the same arguments writes to t2. *)
Theorem C1_identifier_with_title_selects_title_match (lower : string -> string) :
  _resolve_tab lower notes_doc "t2" "Notes" = Ok (body_ending_at_50, "t1") /\
  find (fun entry => String.eqb (e_tabId entry) "t2") (_flatten_tabs (tabs notes_doc) 0)
  = Some (tab_entry 0 notes_second) /\
  fst (run (service_of notes_doc) (append_text lower "doc" "hi" "t2" "Notes")) =
  [GetDocument "doc";
   BatchUpdate "doc"
     [insertText_request [("index", JInt 49); ("tabId", JStr "t1")] (nl ++ "hi")%string]] /\
  fst (run (service_of notes_doc) (insert_text lower "doc" "hi" 49 "t2" "Notes")) =
  [BatchUpdate "doc"
     [insertText_request [("index", JInt 49); ("tabId", JStr "t2")] "hi"]].
Proof.
  assert (Hresolve : _resolve_tab lower notes_doc "t2" "Notes" = Ok (body_ending_at_50, "t1")).
  { unfold _resolve_tab, _find_tab. cbn. now rewrite String.eqb_refl. }
  split; [exact Hresolve|].
  split; [reflexivity|].
  split; [|reflexivity].
  now rewrite (append_text_sends lower (service_of notes_doc) "doc" "hi" "t2" "Notes"
                                 (doc := notes_doc) eq_refl Hresolve).
Qed.

(** C2 (counterexample to the claim as stated). In a document without
    tabs the identifier ["zzz"] is non-empty and no flattened entry
    matches it, yet the resolver raises nothing: it returns the legacy
    body with the empty identifier, and [append_text] goes on to send
    its edit. *)
Lemma C2_counterexample_document_without_tabs :
  ("zzz" <> "" /\
   forall entry, In entry (_flatten_tabs (tabs legacy_doc) 0) ->
                 entry_matches str_lower "zzz" "" entry = false) /\
  _resolve_tab str_lower legacy_doc "zzz" "" = Ok (body_ending_at_50, "") /\
  _resolve_tab str_lower legacy_doc "zzz" "" <> Raise (TabNotFound "zzz" "") /\
  fst (run (service_of legacy_doc) (append_text str_lower "doc" "hi" "zzz" "")) =
  [GetDocument "doc";
   BatchUpdate "doc" [insertText_request [("index", JInt 49)] (nl ++ "hi")%string]].
Proof.
  split; [split; [discriminate | intros entry []]|].
  split; [reflexivity|].
  split; [discriminate | reflexivity].
Qed.

(** ** The theorems on the sample inputs *)

(** C2 on the two-tab document: the identifier ["zzz"] is not found and
    [append_text] stops after the fetch. *)
Lemma C2_not_found_in_notes_doc :
  _resolve_tab str_lower notes_doc "zzz" "" = Raise (TabNotFound "zzz" "") /\
  run (service_of notes_doc) (append_text str_lower "doc" "hi" "zzz" "") =
  ([GetDocument "doc"], Raise (TabNotFound "zzz" "")).
Proof.
  assert (Htabs : tabs notes_doc <> []) by discriminate.
  assert (Hasked : "zzz" <> "" \/ "" <> "") by (left; discriminate).
  assert (Hnone : forall entry, In entry (_flatten_tabs (tabs notes_doc) 0) ->
                                entry_matches str_lower "zzz" "" entry = false).
  { intros entry Hin. simpl in Hin. destruct Hin as [<-|[<-|[]]]; reflexivity. }
  destruct (C2_tab_not_found_when_document_has_tabs str_lower notes_doc "zzz" "")
    as [_ Hwith_tabs].
  destruct (Hwith_tabs Htabs Hasked Hnone) as [Hraise Htools].
  split; [exact Hraise|].
  destruct (Htools (service_of notes_doc) "doc" eq_refl) as [_ [Happend _]].
  exact (Happend "hi").
Defined.

(** C3 on a batch of an unscoped [insertText] and an unscoped
    [replaceAllText]: the location gains the tab id, the text match gains
    the criterion, and that batch is what [batch_update] sends. *)
Lemma C3_injection_in_sample_batch :
  "tab123" <> "" /\
  direct_fields_are_objects
    [[("insertText", JObj [("location", JObj [("index", JInt 1)]); ("text", JStr "x")])];
     [("replaceAllText",
       JObj [("containsText", JObj [("text", JStr "a"); ("matchCase", JBool true)]);
             ("replaceText", JStr "b")])]] = true /\
  exists out,
    scope_requests "tab123"
      [[("insertText", JObj [("location", JObj [("index", JInt 1)]); ("text", JStr "x")])];
       [("replaceAllText",
         JObj [("containsText", JObj [("text", JStr "a"); ("matchCase", JBool true)]);
               ("replaceText", JStr "b")])]] = Ok out /\
    out =
    [[("insertText",
       JObj [("location", JObj [("index", JInt 1); ("tabId", JStr "tab123")]);
             ("text", JStr "x")])];
     [("replaceAllText",
       JObj [("containsText", JObj [("text", JStr "a"); ("matchCase", JBool true)]);
             ("replaceText", JStr "b");
             ("tabsCriteria", JObj [("tabIds", JArr [JStr "tab123"])])])]] /\
    Forall2 (Forall2 (rewritten_op (direct_fields_scoped "tab123")))
      [[("insertText", JObj [("location", JObj [("index", JInt 1)]); ("text", JStr "x")])];
       [("replaceAllText",
         JObj [("containsText", JObj [("text", JStr "a"); ("matchCase", JBool true)]);
               ("replaceText", JStr "b")])]]
      out /\
    fst (run (service_of notes_doc)
             (batch_update str_lower "doc"
                [[("insertText",
                   JObj [("location", JObj [("index", JInt 1)]); ("text", JStr "x")])];
                 [("replaceAllText",
                   JObj [("containsText",
                          JObj [("text", JStr "a"); ("matchCase", JBool true)]);
                         ("replaceText", JStr "b")])]]
                "tab123" "")) =
    [BatchUpdate "doc" out].
Proof.
  assert (Hid : "tab123" <> "") by discriminate.
  split; [exact Hid|]. split; [reflexivity|].
  destruct (C3_scope_rewrite_injects_direct_fields str_lower
              [[("insertText",
                 JObj [("location", JObj [("index", JInt 1)]); ("text", JStr "x")])];
               [("replaceAllText",
                 JObj [("containsText", JObj [("text", JStr "a"); ("matchCase", JBool true)]);
                       ("replaceText", JStr "b")])]]
              Hid)
    as [Hreturns [Hrelated _]].
  destruct (Hreturns eq_refl) as [out Hout].
  exists out. split; [exact Hout|].
  split; [now injection Hout as <-|].
  destruct (Hrelated out Hout) as [Hfields Hsent].
  split; [exact Hfields | exact (Hsent (service_of notes_doc) "doc" "")].
Defined.

(** C3 (counterexample to the claim as stated). The request holds a
    ["range"] field that lacks a ["tabId"], one level below the body of
    its operation. With the non-empty identifier ["tab123"] the rewrite
    returns the batch as it was, the range still lacks a ["tabId"], and
    [batch_update] sends the batch unscoped. *)
Lemma C3_counterexample_nested_range_is_not_scoped :
  "tab123" <> "" /\
  nested_range_request =
  [("updateTextStyle",
    JObj [("fields", JStr "bold");
          ("target",
           JObj [("range", JObj [("startIndex", JInt 1); ("endIndex", JInt 5)])])])] /\
  dict_has "tabId" [("startIndex", JInt 1); ("endIndex", JInt 5)] = false /\
  scope_requests "tab123" [nested_range_request] = Ok [nested_range_request] /\
  scope_requests "tab123" [nested_range_request] <>
  Ok [[("updateTextStyle",
        JObj [("fields", JStr "bold");
              ("target",
               JObj [("range",
                      JObj [("startIndex", JInt 1); ("endIndex", JInt 5);
                            ("tabId", JStr "tab123")])])])]] /\
  fst (run (service_of notes_doc)
           (batch_update str_lower "doc" [nested_range_request] "tab123" "")) =
  [BatchUpdate "doc" [nested_range_request]].
Proof.
  split; [discriminate|].
  split; [reflexivity|].
  split; [reflexivity|].
  split; [reflexivity|].
  split; [discriminate | reflexivity].
Qed.

(** C4 on a batch whose only location carries a tab id. *)
Lemma C4_scoped_batch_is_kept :
  scope_requests "tab123" [scoped_insert] = Ok [scoped_insert] /\
  Forall2 (Forall2 (rewritten_op kept_body)) [scoped_insert] [scoped_insert].
Proof.
  destruct (C4_scope_rewrite_keeps_explicit_scopes str_lower [scoped_insert])
    as [_ [Hscoped [Hkept _]]].
  split; [exact (Hscoped "tab123" eq_refl)|].
  exact (Hkept "tab123" [scoped_insert] (Hscoped "tab123" eq_refl)).
Defined.

(** C5 on the body that ends at index 50: offset 49, text ["\nhi"]. *)
Lemma C5_hi_after_index_50 :
  _body_end_index body_ending_at_50 = 49%Z /\
  fst (run (service_of notes_doc) (append_text str_lower "doc" "hi" "t1" "")) =
  [GetDocument "doc";
   BatchUpdate "doc"
     [[("insertText",
        JObj [("location", JObj [("index", JInt 49); ("tabId", JStr "t1")]);
              ("text", JStr (nl ++ "hi")%string)])]]].
Proof.
  destruct (C5_append_offset_and_leading_newline str_lower) as [_ [Hlast Hsends]].
  split.
  - exact (Hlast body_ending_at_50
                 [text_paragraph (Some "HEADING_2") ("Intro" ++ nl) (Some 7%Z)]
                 (text_paragraph None ("Body text" ++ nl)
                                 (Some 50%Z))
                 50%Z eq_refl eq_refl).
  - destruct (Hsends (service_of notes_doc) "doc" "hi" "t1" "" notes_doc
                     body_ending_at_50 "t1" eq_refl eq_refl) as [_ [_ Hexample]].
    exact (Hexample
             [text_paragraph (Some "HEADING_2") ("Intro" ++ nl) (Some 7%Z)]
             (text_paragraph None ("Body text" ++ nl)
                             (Some 50%Z))
             eq_refl eq_refl eq_refl).
Defined.

(** C6 on a HEADING_2 paragraph with the run ["Intro\n"]. *)
Lemma C6_heading_2_line :
  emitted_lines (text_paragraph (Some "HEADING_2") ("Intro" ++ nl) None) = ["## Intro"] /\
  map_get heading_map (heading_style 2) "" = "## ".
Proof.
  destruct C6_extract_text_rendering as [Hlevels [_ [_ [_ [_ [_ [Hpara _]]]]]]].
  split.
  - destruct (Hpara (text_paragraph (Some "HEADING_2") ("Intro" ++ nl) None) _ eq_refl)
      as [Hline _].
    apply Hline. discriminate.
  - apply (Hlevels 2). split; [apply le_S, le_n | repeat constructor].
Defined.

(** C7 on the tree A(B, C(D)): C follows A, one level deeper. *)
Lemma C7_child_follows_parent :
  exists mid tail,
    _flatten_tabs ([] ++ tree_A None None None None None None None None :: []) 0 =
    _flatten_tabs [] 0 ++
    tab_entry 0 (tree_A None None None None None None None None) ::
    mid ++ tab_entry 1 (tree_C None None None None) :: tail ++ _flatten_tabs [] 0.
Proof.
  destruct C7_flatten_preorder_depth as [_ [_ [_ [_ [Hchild _]]]]].
  apply Hchild. right. left. reflexivity.
Defined.

(** C8 on the two-tab document. *)
Lemma C8_read_notes_doc :
  run (service_of notes_doc) (read_document str_lower "doc" "" "") =
  ([GetDocument "doc"],
   Ok (String.concat section_separator
         (title_section notes_doc :: map tab_section (_flatten_tabs (tabs notes_doc) 0)))).
Proof.
  assert (Htabs : tabs notes_doc <> []) by discriminate.
  exact (proj1 (C8_read_all_tabs str_lower (service_of notes_doc) "doc"
                                 (doc := notes_doc) eq_refl Htabs)).
Defined.


(** C10 on the tab whose only element records no end index. *)
Lemma C10_append_to_body_without_end_index :
  _body_end_index body_without_end_index = 0%Z /\
  fst (run (service_of notes_doc) (append_text str_lower "doc" "hi" "t2" "")) =
  [GetDocument "doc";
   BatchUpdate "doc"
     [[("insertText",
        JObj [("location", JObj [("index", JInt 0); ("tabId", JStr "t2")]);
              ("text", JStr "hi")])]]].
Proof.
  destruct (C10_missing_end_index_gives_offset_zero
              str_lower body_without_end_index [] (text_paragraph None ("text" ++ nl) None)
              eq_refl eq_refl) as [Hzero [_ Hsends]].
  split; [exact Hzero|].
  exact (Hsends (service_of notes_doc) "doc" "hi" "t2" "" notes_doc "t2" eq_refl eq_refl).
Defined.

(** * Further properties of the code *)

(** ** The flattened list as a whole *)

Lemma flatten_tab_length (tab : Tab) :
  forall depth, List.length (flatten_tab depth tab) = tab_size tab.
Proof.
  induction tab as [props children dt IH] using Tab_forest_ind.
  intros depth. cbn [flatten_tab tab_size childTabs List.length]. f_equal.
  induction IH as [|child rest Hchild _ IHrest]; [reflexivity|].
  rewrite length_app, Hchild, IHrest. reflexivity.
Qed.

Lemma _flatten_tabs_length (tabs : list Tab) (depth : nat) :
  List.length (_flatten_tabs tabs depth) = forest_size tabs.
Proof.
  rewrite _flatten_tabs_flat_map. unfold forest_size.
  induction tabs as [|tab rest IH]; simpl; [reflexivity|].
  now rewrite length_app, flatten_tab_length, IH.
Qed.

Lemma depth_steps_ok_app (base : nat) (l1 l2 : list TabEntry) :
  Forall (fun entry => base <= e_depth entry) l1 ->
  (forall previous, base <= S previous -> depth_steps_ok previous l2 = true) ->
  forall previous,
    base <= S previous ->
    depth_steps_ok previous l1 = true ->
    depth_steps_ok previous (l1 ++ l2) = true.
Proof.
  intros Hall Hl2.
  induction Hall as [|entry l1 Hentry _ IH]; intros previous Hprev Hl1; simpl in *.
  - now apply Hl2.
  - apply andb_true_iff in Hl1. destruct Hl1 as [Hstep Hrest].
    rewrite Hstep. simpl. apply IH; [lia | exact Hrest].
Qed.

Lemma preorder_listing_depths (depth : nat) (tabs : list Tab) (flat : list TabEntry) :
  preorder_listing depth tabs flat ->
  Forall (fun entry => depth <= e_depth entry) flat /\
  (forall previous, depth <= S previous -> depth_steps_ok previous flat = true).
Proof.
  induction 1 as [depth|depth tab siblings below after _ [IHb1 IHb2] _ [IHa1 IHa2]].
  - split; [constructor | reflexivity].
  - split.
    + constructor; [simpl; lia|].
      apply Forall_app. split; [|exact IHa1].
      eapply Forall_impl; [|exact IHb1]. simpl. intros entry Hentry. lia.
    + intros previous Hprev. cbn [depth_steps_ok tab_entry e_depth].
      apply andb_true_iff. split; [now apply Nat.leb_le|].
      apply depth_steps_ok_app with (base := depth).
      * eapply Forall_impl; [|exact IHb1]. simpl. intros entry Hentry. lia.
      * exact IHa2.
      * lia.
      * apply IHb2. lia.
Qed.

(** X1. The flattened list starts at depth 0 and from one entry to the
    next the depth rises by at most one: no entry is listed more than one
    level below the entry before it. *)
Theorem X1_flatten_depth_rises_by_one (tabs : list Tab) :
  match _flatten_tabs tabs 0 with
  | [] => tabs = []
  | first :: rest => e_depth first = 0 /\ depth_steps_ok 0 rest = true
  end.
Proof.
  pose proof (preorder_listing_depths (_flatten_tabs_preorder tabs 0)) as [_ Hsteps].
  destruct tabs as [|tab siblings]; [reflexivity|].
  rewrite _flatten_tabs_cons in *.
  split; [reflexivity|].
  specialize (Hsteps 0 (Nat.le_0_l _)).
  cbn [depth_steps_ok tab_entry e_depth] in Hsteps.
  now apply andb_true_iff in Hsteps.
Qed.

(** X2. [list_tabs] fetches the document once and lists one object per
    tab of the tree, nested tabs included, in pre-order, each with the
    identifier, the title, the index and the depth of its entry under the
    keys ["tabId"], ["title"], ["index"] and ["depth"]; the count it
    reports is the total number of tabs of the tree. *)
Theorem X2_list_tabs_lists_every_tab (docs : Service) (document_id : string) (doc : Document) :
  documents_get docs document_id = Returned doc ->
  run docs (list_tabs document_id) =
  ([GetDocument document_id],
   Ok [("documentTitle", JStr (default_to "Untitled" (doc_title doc)));
       ("tabs",
        JArr (map (fun entry =>
                     JObj [("tabId", JStr (e_tabId entry));
                           ("title", JStr (e_title entry));
                           ("index", JInt (e_index entry));
                           ("depth", JInt (Z.of_nat (e_depth entry)))])
                  (_flatten_tabs (tabs doc) 0)));
       ("count", JInt (Z.of_nat (forest_size (tabs doc))))]).
Proof.
  intros Hget.
  unfold run, list_tabs, bind, _get_doc_with_tabs, execute, ret.
  rewrite Hget. cbn [app]. cbv zeta.
  rewrite (fold_left_append (fun entry => [tab_listing entry])).
  cbn [app]. rewrite flat_map_singleton, length_map, _flatten_tabs_length.
  reflexivity.
Qed.

(** ** Resolving what was listed *)

Lemma find_first_match {A : Type} (f : A -> bool) (l : list A) (a : A) :
  In a l -> f a = true -> exists b, find f l = Some b /\ In b l /\ f b = true.
Proof.
  intros Hin Hfa.
  destruct (find f l) as [b|] eqn:Hfind.
  - apply find_some in Hfind. exists b. now split.
  - rewrite (find_none f l Hfind a Hin) in Hfa. discriminate.
Qed.

Lemma NoDup_map_same {A B : Type} (f : A -> B) (l : list A) (a b : A) :
  NoDup (map f l) -> In a l -> In b l -> f a = f b -> a = b.
Proof.
  induction l as [|x l IH]; simpl; intros Hnodup Ha Hb Heq; [contradiction|].
  inversion Hnodup as [|y ys Hnotin Hrest]; subst.
  destruct Ha as [->|Ha]; destruct Hb as [->|Hb]; try reflexivity.
  - exfalso. apply Hnotin. rewrite Heq. now apply in_map.
  - exfalso. apply Hnotin. rewrite <- Heq. now apply in_map.
  - now apply IH.
Qed.

Lemma listed_entry_has_tabs (doc : Document) (entry : TabEntry) :
  In entry (_flatten_tabs (tabs doc) 0) -> tabs doc <> [].
Proof.
  intros Hin Hnone. rewrite Hnone in Hin. exact Hin.
Qed.

Section Lookup.

Variable lower : string -> string.

(** X3. Every listed tab that has an identifier can be resolved by that
    identifier alone: the resolver raises nothing and returns the
    identifier it was given; when the identifiers of the document are
    distinct, the body it returns is the body of that very tab. *)
Theorem X3_listed_identifier_resolves (doc : Document) (entry : TabEntry) :
  In entry (_flatten_tabs (tabs doc) 0) ->
  e_tabId entry <> "" ->
  exists body,
    _resolve_tab lower doc (e_tabId entry) "" = Ok (body, e_tabId entry) /\
    (NoDup (map e_tabId (_flatten_tabs (tabs doc) 0)) -> body = tab_body (e_tab entry)).
Proof.
  intros Hin Hid.
  rewrite (_resolve_tab_by_id lower doc (listed_entry_has_tabs doc entry Hin) Hid).
  destruct (find_first_match (fun e => String.eqb (e_tabId e) (e_tabId entry)) _ entry Hin
                             (String.eqb_refl _)) as [found [Hfind [Hfound Hsame]]].
  rewrite Hfind. apply String.eqb_eq in Hsame.
  exists (tab_body (e_tab found)). rewrite Hsame. split; [reflexivity|].
  intros Hnodup.
  now rewrite (NoDup_map_same e_tabId _ found entry Hnodup Hfound Hin Hsame).
Qed.

(** X4. A title that equals the title of a listed tab up to case always
    resolves: the resolver returns the body and the identifier of a listed
    tab with that title up to case, and raises nothing. *)
Theorem X4_listed_title_resolves (doc : Document) (entry : TabEntry) (tab_title : string) :
  In entry (_flatten_tabs (tabs doc) 0) ->
  tab_title <> "" ->
  lower (e_title entry) = lower tab_title ->
  exists found,
    In found (_flatten_tabs (tabs doc) 0) /\
    lower (e_title found) = lower tab_title /\
    _resolve_tab lower doc "" tab_title = Ok (tab_body (e_tab found), e_tabId found).
Proof.
  intros Hin Htitle Hsame.
  rewrite (_resolve_tab_by_title lower doc (listed_entry_has_tabs doc entry Hin) Htitle).
  destruct (find_first_match
              (fun e => String.eqb (lower (e_title e)) (lower tab_title)) _ entry Hin)
    as [found [Hfind [Hfound Hmatch]]].
  { now apply String.eqb_eq. }
  rewrite Hfind. apply String.eqb_eq in Hmatch.
  exists found. now repeat split.
Qed.

(** X5. The only exception of the resolver is the tab-not-found error
    with the two requested values, and it is raised only for a document
    with tabs, a non-empty identifier or title, and no entry that passes
    either test of the lookup. *)
Theorem X5_resolver_raises_only_when_nothing_matches
        (doc : Document) (tab_id tab_title : string) (e : error) :
  _resolve_tab lower doc tab_id tab_title = Raise e ->
  e = TabNotFound tab_id tab_title /\
  tabs doc <> [] /\
  (tab_id <> "" \/ tab_title <> "") /\
  (forall entry, In entry (_flatten_tabs (tabs doc) 0) ->
                 entry_matches lower tab_id tab_title entry = false).
Proof.
  unfold _resolve_tab, _find_tab. rewrite find_entry_find.
  destruct (tabs doc) as [|first rest] eqn:Hdoc; [discriminate|].
  destruct (truthy tab_id || truthy tab_title) eqn:Hasked; [|discriminate].
  destruct (find _ _) as [found|] eqn:Hfind; [discriminate|].
  cbn [option_map]. intros H. injection H as <-.
  split; [reflexivity|]. split; [discriminate|]. split.
  - apply orb_true_iff in Hasked.
    destruct Hasked as [H|H]; [left | right]; now apply truthy_true_iff.
  - intros entry Hin. exact (find_none _ _ Hfind entry Hin).
Qed.

End Lookup.

(** ** The tools and the service *)

Ltac unfold_any_tool :=
  unfold run, read_document, append_text, insert_text, replace_text, batch_update,
         list_tabs, get_document_info, resolve_scope,
         bind, _get_doc_with_tabs, batchUpdate, execute, lift, ret;
  cbn [truthy negb andb orb app fst snd].

Ltac split_any_outcome :=
  repeat (cbn [truthy negb andb orb app fst snd];
          match goal with
          | |- context [truthy ?s] => destruct (truthy s)
          | |- context [documents_get ?docs ?d] =>
              destruct (documents_get docs d)
          | |- context [_resolve_tab ?l ?doc ?i ?t] =>
              destruct (_resolve_tab l doc i t) as [[? ?]|?]
          | |- context [scope_requests ?i ?r] =>
              destruct (scope_requests i r)
          | |- context [documents_batchUpdate ?docs ?d ?r] =>
              destruct (documents_batchUpdate docs d r)
          | |- context [match tabs ?doc with _ => _ end] => destruct (tabs doc)
          end);
  cbn [truthy negb andb orb app fst snd].

Ltac pick_round_trip :=
  first [ left; reflexivity
        | right; left; reflexivity
        | right; right; left; eexists; reflexivity
        | right; right; right; eexists; reflexivity ].

Section ToolProperties.

Variable lower : string -> string.

(** X6. Without identifier and title [append_text] edits the first tab of
    the document, scoped by that tab's identifier; on a document without
    tabs it edits the legacy body with a location that carries no tab
    identifier, whatever identifier or title it was called with. *)
Theorem X6_append_text_default_target
        (docs : Service) (document_id text : string) (doc : Document) :
  documents_get docs document_id = Returned doc ->
  (forall first rest,
      tabs doc = first :: rest ->
      fst (run docs (append_text lower document_id text "" "")) =
      [GetDocument document_id;
       BatchUpdate document_id
         [[("insertText",
            JObj [("location",
                   JObj (scoped_location (_body_end_index (tab_body first))
                                         (e_tabId (tab_entry 0 first))));
                  ("text",
                   JStr (if (_body_end_index (tab_body first) >? 1)%Z
                         then (nl ++ text)%string else text))])]]]) /\
  (forall tab_id tab_title,
      tabs doc = [] ->
      fst (run docs (append_text lower document_id text tab_id tab_title)) =
      [GetDocument document_id;
       BatchUpdate document_id
         [[("insertText",
            JObj [("location",
                   JObj [("index",
                          JInt (_body_end_index (default_to empty_body (doc_body doc))))]);
                  ("text",
                   JStr (if (_body_end_index (default_to empty_body (doc_body doc)) >? 1)%Z
                         then (nl ++ text)%string else text))])]]]).
Proof.
  intros Hget. split.
  - intros first rest Htabs.
    apply (append_text_sends lower docs document_id text "" "" Hget).
    unfold _resolve_tab. now rewrite Htabs.
  - intros tab_id tab_title Htabs.
    rewrite (append_text_sends lower docs document_id text tab_id tab_title
                               (body := default_to empty_body (doc_body doc))
                               (resolved_tab_id := "") Hget).
    + reflexivity.
    + unfold _resolve_tab. now rewrite Htabs.
Qed.

(** X7. [read_document], [list_tabs] and [get_document_info] never send
    an edit: whatever they are called with and whatever the service
    answers, their only call is the fetch of the document. *)
Theorem X7_reading_tools_only_fetch (docs : Service) (document_id tab_id tab_title : string) :
  fst (run docs (read_document lower document_id tab_id tab_title)) = [GetDocument document_id] /\
  fst (run docs (list_tabs document_id)) = [GetDocument document_id] /\
  fst (run docs (get_document_info document_id)) = [GetDocument document_id].
Proof.
  repeat split; unfold_any_tool; split_any_outcome; reflexivity.
Qed.

(** X8. Each editing tool makes at most one fetch and then at most one
    edit, both of the document it was called for. *)
Theorem X8_editing_tools_single_round_trip
        (docs : Service) (document_id tab_id tab_title : string) :
  (forall text,
      single_round_trip document_id
        (fst (run docs (append_text lower document_id text tab_id tab_title)))) /\
  (forall text index,
      single_round_trip document_id
        (fst (run docs (insert_text lower document_id text index tab_id tab_title)))) /\
  (forall find replace_with match_case,
      single_round_trip document_id
        (fst (run docs (replace_text lower document_id find replace_with match_case
                                     tab_id tab_title)))) /\
  (forall requests,
      single_round_trip document_id
        (fst (run docs (batch_update lower document_id requests tab_id tab_title)))).
Proof.
  unfold single_round_trip.
  repeat split; intros; unfold_any_tool; split_any_outcome; pick_round_trip.
Qed.

(** X9. When the fetch fails, every tool that fetches ends with the
    remote error carrying the service's diagnostic, and nothing is sent
    after the failed fetch. *)
Theorem X9_failed_fetch_is_passed_on
        (docs : Service) (document_id diagnostic : string) :
  documents_get docs document_id = Failed diagnostic ->
  (forall tab_id tab_title,
      run docs (read_document lower document_id tab_id tab_title) =
      ([GetDocument document_id], Raise (RemoteError diagnostic))) /\
  (forall text tab_id tab_title,
      run docs (append_text lower document_id text tab_id tab_title) =
      ([GetDocument document_id], Raise (RemoteError diagnostic))) /\
  run docs (list_tabs document_id) = ([GetDocument document_id], Raise (RemoteError diagnostic)) /\
  run docs (get_document_info document_id) =
  ([GetDocument document_id], Raise (RemoteError diagnostic)) /\
  (forall tab_title,
      tab_title <> "" ->
      (forall text index,
          run docs (insert_text lower document_id text index "" tab_title) =
          ([GetDocument document_id], Raise (RemoteError diagnostic))) /\
      (forall find replace_with match_case,
          run docs (replace_text lower document_id find replace_with match_case "" tab_title) =
          ([GetDocument document_id], Raise (RemoteError diagnostic))) /\
      (forall requests,
          run docs (batch_update lower document_id requests "" tab_title) =
          ([GetDocument document_id], Raise (RemoteError diagnostic)))).
Proof.
  intros Hget.
  split; [|split; [|split; [|split]]].
  - intros tab_id tab_title. unfold_any_tool. now rewrite Hget.
  - intros text tab_id tab_title. unfold_any_tool. now rewrite Hget.
  - unfold_any_tool. now rewrite Hget.
  - unfold_any_tool. now rewrite Hget.
  - intros tab_title Htitle. apply truthy_true_iff in Htitle.
    repeat split; intros; unfold_any_tool; rewrite Htitle; cbn [andb]; now rewrite Hget.
Qed.

Ltac split_keeping_edit :=
  repeat (cbn [truthy negb andb orb app fst snd];
          match goal with
          | |- context [truthy ?s] => destruct (truthy s)
          | |- context [documents_get ?docs ?d] =>
              destruct (documents_get docs d)
          | |- context [_resolve_tab ?l ?doc ?i ?t] =>
              destruct (_resolve_tab l doc i t) as [[? ?]|?]
          | |- context [scope_requests ?i ?r] =>
              destruct (scope_requests i r)
          | |- context [documents_batchUpdate ?docs ?d ?r] =>
              let Hedit := fresh "Hedit" in
              destruct (documents_batchUpdate docs d r) eqn:Hedit
          end);
  cbn [truthy negb andb orb app fst snd].

Ltac settle_edit :=
  let Hin := fresh "Hin" in
  intros Hin; cbn [In] in Hin;
  repeat match type of Hin with
         | _ \/ _ => destruct Hin as [Hin|Hin]
         end;
  try contradiction; try discriminate;
  injection Hin as Hin; subst;
  match goal with
  | E1 : documents_batchUpdate ?docs ?d ?r1 = ?x,
    E2 : documents_batchUpdate ?docs ?d ?r2 = ?y |- _ =>
      tryif constr_eq E1 E2 then fail else
        (let Hsame := fresh "Hsame" in
         assert (Hsame : x = y)
           by (transitivity (documents_batchUpdate docs d r1);
               [symmetry; exact E1 | exact E2]);
         try discriminate Hsame;
         try (injection Hsame as Hsame; subst))
  end;
  first [reflexivity | eexists; reflexivity].

(** X10. When an editing tool has sent its edit, the outcome of the tool
    is the outcome of that edit: a failed edit ends the tool with the
    remote error carrying the diagnostic, an accepted edit ends it with a
    result. *)
Theorem X10_outcome_follows_the_edit
        (docs : Service) (document_id tab_id tab_title : string) (requests : list dict) :
  (forall text,
      edit_decides docs document_id requests
        (run docs (append_text lower document_id text tab_id tab_title))) /\
  (forall text index,
      edit_decides docs document_id requests
        (run docs (insert_text lower document_id text index tab_id tab_title))) /\
  (forall find replace_with match_case,
      edit_decides docs document_id requests
        (run docs (replace_text lower document_id find replace_with match_case
                                tab_id tab_title))) /\
  (forall sent,
      edit_decides docs document_id requests
        (run docs (batch_update lower document_id sent tab_id tab_title))).
Proof.
  unfold edit_decides.
  repeat split; intros;
    match goal with H : In _ _ |- _ => revert H end;
    unfold_any_tool; split_keeping_edit; settle_edit.
Qed.

Lemma py_len_after_newline (text : string) :
  py_len (nl ++ text) = (py_len text + 1)%Z.
Proof.
  change (py_len (nl ++ text)) with (1 + py_len text)%Z. lia.
Qed.

(** X11. When the fetch, the resolution and the edit succeed,
    [append_text] reports the offset it inserted at, the resolved tab
    identifier, and as appended characters the length of the text plus
    one for the newline it put in front when the offset is above 1. *)
Theorem X11_append_text_report
        (docs : Service) (document_id text tab_id tab_title : string)
        (doc : Document) (body : Body) (resolved_tab_id : string)
        (response : BatchUpdateResponse) :
  documents_get docs document_id = Returned doc ->
  _resolve_tab lower doc tab_id tab_title = Ok (body, resolved_tab_id) ->
  documents_batchUpdate docs document_id
    [insertText_request
       (scoped_location (_body_end_index body) resolved_tab_id)
       (if (_body_end_index body >? 1)%Z then (nl ++ text)%string else text)]
  = Returned response ->
  snd (run docs (append_text lower document_id text tab_id tab_title)) =
  Ok [("status", JStr "ok");
      ("appended_chars",
       JInt (py_len text + (if (_body_end_index body >? 1)%Z then 1 else 0))%Z);
      ("at_index", JInt (_body_end_index body));
      ("tabId", JStr resolved_tab_id)].
Proof.
  intros Hget Hresolve Hedit.
  unfold run, append_text, bind, _get_doc_with_tabs, batchUpdate, execute, lift, ret.
  rewrite Hget. cbn [app]. rewrite Hresolve. cbv zeta.
  unfold scoped_location in Hedit.
  assert (Hsent :
            documents_batchUpdate docs document_id
              [insertText_request
                 (if truthy resolved_tab_id
                  then dict_set "tabId" (JStr resolved_tab_id)
                                [("index", JInt (_body_end_index body))]
                  else [("index", JInt (_body_end_index body))])
                 (if (_body_end_index body >? 1)%Z then (nl ++ text)%string else text)]
            = Returned response).
  { destruct (truthy resolved_tab_id); exact Hedit. }
  rewrite Hsent. cbn [snd].
  destruct (_body_end_index body >? 1)%Z.
  - now rewrite py_len_after_newline.
  - now rewrite Z.add_0_r.
Qed.

(** X12. [read_document] called with the identifier of a listed tab and
    no title returns a header with the document title and the title of
    the first listed tab that has this identifier, a blank line, and the
    extractor's rendering of that tab's own body. *)
Theorem X12_read_one_tab_by_identifier
        (docs : Service) (document_id tab_id : string) (doc : Document) (entry : TabEntry) :
  documents_get docs document_id = Returned doc ->
  tab_id <> "" ->
  find (fun e => String.eqb (e_tabId e) tab_id) (_flatten_tabs (tabs doc) 0) = Some entry ->
  run docs (read_document lower document_id tab_id "") =
  ([GetDocument document_id],
   Ok ("# " ++ default_to "Untitled" (doc_title doc) ++ " " ++ em_dash ++
       " [" ++ e_title entry ++ "]" ++ nl ++ nl ++
       _extract_text_from_body (tab_body (e_tab entry)))%string).
Proof.
  intros Hget Hid Hfind.
  pose proof (find_some _ _ Hfind) as [Hin Hsame].
  apply String.eqb_eq in Hsame.
  assert (Htabs : tabs doc <> []) by exact (listed_entry_has_tabs doc entry Hin).
  assert (Htitle : default_to "" (tp_title (default_to empty_props (tabProperties (e_tab entry))))
                   = e_title entry).
  { rewrite (_flatten_tabs_entries _ _ _ Hin) at 2. reflexivity. }
  unfold run, read_document, bind, _get_doc_with_tabs, execute, lift, ret.
  rewrite Hget. cbn [app].
  apply truthy_true_iff in Hid. rewrite Hid. cbn [orb].
  apply truthy_true_iff in Hid.
  rewrite (_resolve_tab_by_id lower doc Htabs Hid), Hfind.
  unfold _find_tab. rewrite Hsame, (find_entry_by_id lower _ Hid), Hfind.
  cbn [option_map]. now rewrite Htitle.
Qed.

(** X13. [replace_text] called with an identifier, or with neither
    identifier nor title, reports the count of the first reply of the
    service, and 0 when the response has no replies, an empty list of
    replies, or a first reply without that count; without identifier and
    title its request carries no tab criteria. *)
Theorem X13_replace_text_report
        (docs : Service) (document_id find replace_with : string) (match_case : bool)
        (response : BatchUpdateResponse) :
  (forall tab_id tab_title,
      tab_id <> "" ->
      documents_batchUpdate docs document_id
        [scoped_replace_request find replace_with match_case tab_id] = Returned response ->
      snd (run docs (replace_text lower document_id find replace_with match_case
                                  tab_id tab_title)) =
      Ok [("status", JStr "ok");
          ("occurrences_replaced", JInt (reported_occurrences response));
          ("tabId", JStr tab_id)]) /\
  (documents_batchUpdate docs document_id
     [unscoped_replace_request find replace_with match_case] = Returned response ->
   run docs (replace_text lower document_id find replace_with match_case "" "") =
   ([BatchUpdate document_id [unscoped_replace_request find replace_with match_case]],
    Ok [("status", JStr "ok");
        ("occurrences_replaced", JInt (reported_occurrences response));
        ("tabId", JStr "")])).
Proof.
  assert (Hcount :
            match default_to [mkReply None] (replies response) with
            | [] => 0%Z
            | reply :: _ =>
                default_to 0%Z
                  (occurrencesChanged
                     (default_to (mkReplaceAllTextReply None) (replaceAllText reply)))
            end = reported_occurrences response).
  { unfold reported_occurrences.
    destruct (replies response) as [[|reply rest]|]; try reflexivity.
    cbn [default_to]. now destruct (replaceAllText reply). }
  split.
  - intros tab_id tab_title Hid Hedit.
    unfold run, replace_text. rewrite (resolve_scope_by_id lower document_id tab_title Hid).
    apply truthy_true_iff in Hid.
    unfold bind, batchUpdate, execute, ret. rewrite Hid.
    match goal with
    | |- context [documents_batchUpdate docs document_id ?r] =>
        replace (documents_batchUpdate docs document_id r) with (Returned response)
          by (symmetry; exact Hedit)
    end.
    cbn [snd]. cbv zeta. now rewrite Hcount.
  - intros Hedit.
    unfold run, replace_text, resolve_scope, bind, batchUpdate, execute, ret.
    cbn [truthy negb andb app].
    match goal with
    | |- context [documents_batchUpdate docs document_id ?r] =>
        replace (documents_batchUpdate docs document_id r) with (Returned response)
          by (symmetry; exact Hedit)
    end.
    cbv zeta. now rewrite Hcount.
Qed.

(** X14. Called with a title alone, [insert_text], [replace_text] and
    [batch_update] fetch the document, resolve the title, and scope their
    edit with the identifier the resolver returned; when that identifier
    is empty the edit goes out unscoped. *)
Theorem X14_title_is_resolved_to_the_scope
        (docs : Service) (document_id tab_title : string) (doc : Document)
        (body : Body) (resolved_tab_id : string) :
  documents_get docs document_id = Returned doc ->
  tab_title <> "" ->
  _resolve_tab lower doc "" tab_title = Ok (body, resolved_tab_id) ->
  (forall text index,
      fst (run docs (insert_text lower document_id text index "" tab_title)) =
      [GetDocument document_id;
       BatchUpdate document_id
         [[("insertText",
            JObj [("location", JObj (scoped_location index resolved_tab_id));
                  ("text", JStr text)])]]]) /\
  (forall find replace_with match_case,
      fst (run docs (replace_text lower document_id find replace_with match_case "" tab_title)) =
      [GetDocument document_id;
       BatchUpdate document_id
         [if truthy resolved_tab_id
          then scoped_replace_request find replace_with match_case resolved_tab_id
          else unscoped_replace_request find replace_with match_case]]) /\
  (forall requests,
      fst (run docs (batch_update lower document_id requests "" tab_title)) =
      GetDocument document_id ::
      match scope_requests resolved_tab_id requests with
      | Ok out => [BatchUpdate document_id out]
      | Raise _ => []
      end).
Proof.
  intros Hget Htitle Hresolve.
  split; [|split].
  - intros text index. apply truthy_true_iff in Htitle.
    unfold run, insert_text, bind, _get_doc_with_tabs, batchUpdate, execute, lift, ret.
    cbn [truthy]. rewrite Htitle, Hget. cbn [app]. rewrite Hresolve.
    unfold scoped_location.
    destruct (truthy resolved_tab_id);
      destruct (documents_batchUpdate docs document_id _); reflexivity.
  - intros find replace_with match_case.
    unfold run, replace_text, bind.
    rewrite (resolve_scope_by_title lower docs [] document_id Htitle), Hget, Hresolve.
    unfold batchUpdate, execute, ret, scoped_replace_request, unscoped_replace_request.
    cbn [snd app].
    destruct (truthy resolved_tab_id);
      destruct (documents_batchUpdate docs document_id _); reflexivity.
  - intros requests.
    unfold run, batch_update, bind.
    rewrite (resolve_scope_by_title lower docs [] document_id Htitle), Hget, Hresolve.
    unfold batchUpdate, execute, lift, ret. cbn [snd app].
    destruct (scope_requests resolved_tab_id requests) as [out|e]; [|reflexivity].
    destruct (documents_batchUpdate docs document_id out); reflexivity.
Qed.

End ToolProperties.

(** ** The scope rewrite: what it accepts and what a second pass does *)

Lemma contains_tabId_after_scoped (resolved_tab_id : string) (v : json) :
  contains_tabId v = Ok true \/ (exists target, v = JObj target) ->
  contains_tabId (scoped_value resolved_tab_id v) = Ok true.
Proof.
  intros [Hhas|[target ->]].
  - destruct v; cbn [contains_tabId scoped_value] in *; try discriminate; try exact Hhas.
    injection Hhas as Hhas. rewrite Hhas. cbn [contains_tabId]. now rewrite Hhas.
  - cbn [scoped_value]. destruct (dict_has "tabId" target) eqn:Hhas; cbn [contains_tabId].
    + now rewrite Hhas.
    + now rewrite dict_has_set_same.
Qed.

Lemma inject_key_field (resolved_tab_id : string) (op_body op_body' : dict) (key : string)
      (v : json) :
  inject_key resolved_tab_id op_body key = Ok op_body' ->
  dict_get key op_body = Some v ->
  contains_tabId v = Ok true \/ (exists target, v = JObj target).
Proof.
  unfold inject_key. intros Hinject Hget. rewrite Hget in Hinject.
  destruct (contains_tabId v) as [[|]|e] eqn:Hhas; simpl in Hinject.
  - now left.
  - right. destruct v; try discriminate. now eexists.
  - discriminate.
Qed.

Lemma inject_keys_fields (resolved_tab_id : string) (keys : list string) :
  NoDup keys ->
  forall op_body op_body',
    inject_keys resolved_tab_id op_body keys = Ok op_body' ->
    forall key v,
      In key keys -> dict_get key op_body = Some v ->
      contains_tabId v = Ok true \/ (exists target, v = JObj target).
Proof.
  induction 1 as [|first rest Hnotin Hnodup IH]; intros op_body op_body' Hinject key v Hin Hget;
    simpl in *; [contradiction|].
  destruct (inject_key resolved_tab_id op_body first) as [body1|e] eqn:Hfirst;
    simpl in Hinject; [|discriminate].
  destruct Hin as [->|Hin].
  - exact (inject_key_field _ _ _ Hfirst Hget).
  - apply (IH _ _ Hinject key v Hin).
    rewrite (inject_key_get _ _ _ Hfirst key).
    destruct (String.eqb_spec key first) as [->|_]; [contradiction | exact Hget].
Qed.

Lemma inject_key_settled (resolved_tab_id : string) (op_body : dict) (key : string) :
  (forall v, dict_get key op_body = Some v -> contains_tabId v = Ok true) ->
  inject_key resolved_tab_id op_body key = Ok op_body.
Proof.
  unfold inject_key. intros Hsettled.
  destruct (dict_get key op_body) as [v|]; [|reflexivity].
  now rewrite (Hsettled v eq_refl).
Qed.

Lemma inject_keys_settled (resolved_tab_id : string) (keys : list string) (op_body : dict) :
  (forall key v, In key keys -> dict_get key op_body = Some v -> contains_tabId v = Ok true) ->
  inject_keys resolved_tab_id op_body keys = Ok op_body.
Proof.
  induction keys as [|key rest IH]; intros Hsettled; simpl; [reflexivity|].
  rewrite inject_key_settled.
  - simpl. apply IH. intros k v Hk. apply Hsettled. now right.
  - intros v. apply Hsettled. now left.
Qed.

Lemma inject_criteria_again (first_id second_id : string) (op_body : dict) :
  inject_criteria second_id (inject_criteria first_id op_body) =
  inject_criteria first_id op_body.
Proof.
  destruct (dict_has "containsText" op_body && negb (dict_has "tabsCriteria" op_body))
    eqn:Hfirst.
  - assert (Hset : inject_criteria first_id op_body =
                   dict_set "tabsCriteria" (JObj [("tabIds", JArr [JStr first_id])]) op_body)
      by (unfold inject_criteria; now rewrite Hfirst).
    rewrite Hset. unfold inject_criteria.
    now rewrite dict_has_set_same, andb_false_r.
  - assert (Hkept : inject_criteria first_id op_body = op_body)
      by (unfold inject_criteria; now rewrite Hfirst).
    rewrite Hkept. unfold inject_criteria. now rewrite Hfirst.
Qed.

Lemma scope_op_again (first_id second_id : string) (item item' : string * json) :
  scope_op first_id item = Ok item' ->
  scope_op second_id item' = Ok item'.
Proof.
  destruct item as [op_name op_body]. unfold scope_op at 1.
  destruct op_body; try (intros H; injection H as <-; reflexivity).
  destruct (inject_keys first_id fields scope_keys) as [body1|e] eqn:Hkeys;
    cbn [result_bind]; [|discriminate].
  intros H. injection H as <-. unfold scope_op.
  rewrite inject_keys_settled.
  - cbn [result_bind]. now rewrite inject_criteria_again.
  - intros key v Hin Hget.
    rewrite inject_criteria_get in Hget.
    destruct (String.eqb_spec key "tabsCriteria") as [->|_];
      [unfold scope_keys in Hin; simpl in Hin; intuition discriminate|].
    cbn [andb] in Hget.
    rewrite (inject_keys_get first_id scope_keys_NoDup _ Hkeys key) in Hget.
    apply in_scope_keys_existsb in Hin as Hex. rewrite Hex in Hget.
    destruct (dict_get key fields) as [v0|] eqn:Hfield; [|discriminate].
    injection Hget as <-.
    apply contains_tabId_after_scoped.
    exact (inject_keys_fields first_id scope_keys_NoDup _ Hkeys key Hin Hfield).
Qed.

Lemma result_map_again {A : Type} (f g : A -> result A) (l l' : list A) :
  (forall a b, f a = Ok b -> g b = Ok b) ->
  result_map f l = Ok l' -> result_map g l' = Ok l'.
Proof.
  intros Hfg Hmap. apply result_map_pointwise in Hmap.
  apply result_map_same. intros b Hb.
  induction Hmap as [|a b' l l' Hab _ IH]; [contradiction|].
  destruct Hb as [->|Hb]; [exact (Hfg a b Hab) | now apply IH].
Qed.

(** X15. A batch that the rewrite has returned for a non-empty identifier
    is left as it is by a second rewrite, with the same or with any other
    identifier: the scope a field or a text match was given first is
    never replaced. *)
Theorem X15_second_rewrite_changes_nothing
        (first_id second_id : string) (requests out : list dict) :
  first_id <> "" ->
  scope_requests first_id requests = Ok out ->
  scope_requests second_id out = Ok out.
Proof.
  intros Hid Hout. apply truthy_true_iff in Hid.
  unfold scope_requests in *. rewrite Hid in Hout.
  destruct (truthy second_id); [|reflexivity].
  eapply result_map_again; [|exact Hout].
  intros req req' Hreq. unfold scope_request in *.
  eapply result_map_again; [|exact Hreq].
  intros item item'. apply scope_op_again.
Qed.

Lemma field_walkable_of_accepted (v : json) :
  contains_tabId v = Ok true \/ (exists target, v = JObj target) ->
  field_walkable v = true.
Proof.
  intros [Hhas|[target ->]]; [|reflexivity].
  destruct v; cbn [contains_tabId field_walkable] in *; try discriminate;
    try reflexivity; now injection Hhas.
Qed.

Lemma field_walkable_scoped (resolved_tab_id : string) (v : json) :
  field_walkable v = true -> field_walkable (scoped_value resolved_tab_id v) = true.
Proof.
  destruct v; cbn [scoped_value]; try (intros H; exact H).
  intros _. now destruct (dict_has "tabId" fields).
Qed.

Lemma inject_key_walkable_returns (resolved_tab_id : string) (op_body : dict) (key : string) :
  key_walkable op_body key = true ->
  exists op_body', inject_key resolved_tab_id op_body key = Ok op_body'.
Proof.
  unfold key_walkable, inject_key.
  destruct (dict_get key op_body) as [v|]; [|intros _; now eexists].
  destruct v; cbn [field_walkable contains_tabId result_bind]; try discriminate.
  - intros ->. now eexists.
  - intros ->. now eexists.
  - intros _. destruct (dict_has "tabId" fields); now eexists.
Qed.

Lemma inject_key_keeps_walkable (resolved_tab_id : string) (op_body op_body' : dict)
      (key k : string) :
  inject_key resolved_tab_id op_body key = Ok op_body' ->
  key_walkable op_body k = true -> key_walkable op_body' k = true.
Proof.
  intros Hinject. unfold key_walkable.
  rewrite (inject_key_get _ _ _ Hinject k).
  destruct (String.eqb_spec k key) as [->|_]; [|intros H; exact H].
  destruct (dict_get key op_body) as [v|]; cbn [option_map]; [|reflexivity].
  apply field_walkable_scoped.
Qed.

Lemma inject_keys_walkable_returns (resolved_tab_id : string) (keys : list string) :
  forall op_body,
    forallb (key_walkable op_body) keys = true ->
    exists op_body', inject_keys resolved_tab_id op_body keys = Ok op_body'.
Proof.
  induction keys as [|key rest IH]; intros op_body Hwalk; simpl in *; [now eexists|].
  apply andb_true_iff in Hwalk. destruct Hwalk as [Hkey Hrest].
  destruct (inject_key_walkable_returns resolved_tab_id op_body key Hkey) as [body1 Hbody1].
  rewrite Hbody1. cbn [result_bind]. apply IH.
  apply forallb_forall. intros k Hk.
  rewrite forallb_forall in Hrest.
  exact (inject_key_keeps_walkable _ _ _ k Hbody1 (Hrest k Hk)).
Qed.

Lemma inject_keys_returns_walkable (resolved_tab_id : string) (op_body op_body' : dict) :
  inject_keys resolved_tab_id op_body scope_keys = Ok op_body' ->
  forallb (key_walkable op_body) scope_keys = true.
Proof.
  intros Hinject. apply forallb_forall. intros key Hin.
  unfold key_walkable.
  destruct (dict_get key op_body) as [v|] eqn:Hget; [|reflexivity].
  apply field_walkable_of_accepted.
  exact (inject_keys_fields resolved_tab_id scope_keys_NoDup _ Hinject key Hin Hget).
Qed.

Lemma scope_op_returns_iff (resolved_tab_id : string) (item : string * json) :
  (exists item', scope_op resolved_tab_id item = Ok item') <-> op_walkable item = true.
Proof.
  destruct item as [op_name op_body]. unfold op_walkable, scope_op. cbn [snd].
  destruct op_body; try (split; [reflexivity | intros _; now eexists]).
  split.
  - intros [item' Hitem].
    destruct (inject_keys resolved_tab_id fields scope_keys) as [body1|e] eqn:Hkeys;
      cbn [result_bind] in Hitem; [|discriminate].
    exact (inject_keys_returns_walkable _ _ Hkeys).
  - intros Hwalk.
    destruct (inject_keys_walkable_returns resolved_tab_id scope_keys fields Hwalk)
      as [body1 Hbody1].
    rewrite Hbody1. cbn [result_bind]. now eexists.
Qed.

Lemma result_map_returns_iff {A B : Type} (f : A -> result B) (ok : A -> bool) (l : list A) :
  (forall a, (exists b, f a = Ok b) <-> ok a = true) ->
  (exists l', result_map f l = Ok l') <-> forallb ok l = true.
Proof.
  intros Hok. split.
  - intros [l' Hmap]. apply result_map_pointwise in Hmap.
    induction Hmap as [|a b l l' Hab _ IH]; [reflexivity|].
    simpl. rewrite IH, andb_true_r. apply Hok. now exists b.
  - intros Hall. apply result_map_returns. intros a Ha.
    rewrite forallb_forall in Hall. apply Hok. now apply Hall.
Qed.

Lemma scope_requests_returns_iff (resolved_tab_id : string) (requests : list dict) :
  resolved_tab_id <> "" ->
  (exists out, scope_requests resolved_tab_id requests = Ok out) <->
  batch_walkable requests = true.
Proof.
  intros Hid. apply truthy_true_iff in Hid.
  unfold scope_requests, batch_walkable. rewrite Hid.
  apply result_map_returns_iff. intros req.
  unfold scope_request. apply result_map_returns_iff. intros item.
  apply scope_op_returns_iff.
Qed.

(** X16. With a non-empty identifier the rewrite returns a batch exactly
    when, in every operation body, each of the three fields that is
    present is an object, or is a str or a list in which ["tabId" in v]
    holds; otherwise it raises [TypeError], and [batch_update] called with
    that identifier then makes no call at all. *)
Theorem X16_rewrite_raises_exactly_on_unwalkable_fields
        (lower : string -> string) (resolved_tab_id : string) (requests : list dict) :
  resolved_tab_id <> "" ->
  ((exists out, scope_requests resolved_tab_id requests = Ok out) <->
   batch_walkable requests = true) /\
  (scope_requests resolved_tab_id requests = Raise TypeError <->
   batch_walkable requests = false) /\
  (batch_walkable requests = false ->
   forall docs document_id tab_title,
     run docs (batch_update lower document_id requests resolved_tab_id tab_title) =
     ([], Raise TypeError)).
Proof.
  intros Hid.
  pose proof (scope_requests_returns_iff requests Hid) as Hiff.
  assert (Hraise : batch_walkable requests = false ->
                   scope_requests resolved_tab_id requests = Raise TypeError).
  { intros Hwalk.
    destruct (scope_requests resolved_tab_id requests) as [out|e] eqn:Hscope.
    - assert (Htrue : batch_walkable requests = true) by (apply Hiff; now exists out).
      rewrite Htrue in Hwalk. discriminate.
    - now rewrite (scope_requests_raises_TypeError _ _ Hscope). }
  split; [exact Hiff|]. split.
  - split; [|exact Hraise].
    intros Hscope. destruct (batch_walkable requests) eqn:Hwalk; [|reflexivity].
    destruct (proj2 Hiff eq_refl) as [out Hout]. rewrite Hout in Hscope. discriminate.
  - intros Hwalk docs document_id tab_title.
    unfold run, batch_update. rewrite (resolve_scope_by_id lower document_id tab_title Hid).
    unfold bind, lift, ret. now rewrite (Hraise Hwalk).
Qed.

(** ** The extractor on parts of a body *)

Lemma str_append_assoc (a b c : string) :
  ((a ++ b) ++ c = a ++ b ++ c)%string.
Proof.
  induction a as [|x a IH]; simpl; [reflexivity | now rewrite IH].
Qed.

Lemma concat_lines_app (sep : string) (l1 l2 : list string) :
  l1 <> [] -> l2 <> [] ->
  String.concat sep (l1 ++ l2) = (String.concat sep l1 ++ sep ++ String.concat sep l2)%string.
Proof.
  intros Hl1 Hl2.
  induction l1 as [|x l1 IH]; [contradiction|].
  destruct l1 as [|x' l1].
  - destruct l2 as [|y l2]; [contradiction | reflexivity].
  - change (String.concat sep ((x :: x' :: l1) ++ l2))
      with (x ++ sep ++ String.concat sep ((x' :: l1) ++ l2))%string.
    rewrite IH by discriminate.
    change (String.concat sep (x :: x' :: l1))
      with (x ++ sep ++ String.concat sep (x' :: l1))%string.
    now rewrite !str_append_assoc.
Qed.

Lemma extract_app_lines (c1 c2 : list StructuralElement) :
  _extract_text_from_body (mkBody (c1 ++ c2)) =
  String.concat nl (flat_map emitted_lines c1 ++ flat_map emitted_lines c2).
Proof.
  rewrite _extract_text_from_body_lines. cbn [content].
  now rewrite flat_map_app.
Qed.

(** X17. The rendering of a body is made of the renderings of its parts:
    of two runs of elements that both emit lines, joined by one newline;
    and an element that emits no line (an element that is not a
    paragraph, a heading paragraph without text) can be removed from
    anywhere in the body without changing the rendering. *)
Theorem X17_rendering_of_parts :
  (forall c1 c2,
      flat_map emitted_lines c1 <> [] ->
      flat_map emitted_lines c2 <> [] ->
      _extract_text_from_body (mkBody (c1 ++ c2)) =
      (_extract_text_from_body (mkBody c1) ++ nl ++ _extract_text_from_body (mkBody c2))%string) /\
  (forall before element after,
      emitted_lines element = [] ->
      _extract_text_from_body (mkBody (before ++ element :: after)) =
      _extract_text_from_body (mkBody (before ++ after))).
Proof.
  split.
  - intros c1 c2 H1 H2.
    rewrite extract_app_lines, (concat_lines_app nl H1 H2).
    now rewrite !_extract_text_from_body_lines.
  - intros before element after Hnone.
    rewrite !extract_app_lines. cbn [flat_map]. now rewrite Hnone.
Qed.

Lemma rstrip_nl_newlines (k : nat) : rstrip_nl (str_repeat nl k) = "".
Proof.
  induction k as [|k IH]; [reflexivity|].
  change (str_repeat nl (S k)) with (String newline (str_repeat nl k)).
  cbn [rstrip_nl]. rewrite IH. now rewrite Ascii.eqb_refl.
Qed.

Lemma rstrip_nl_absorbs (s : string) (k : nat) :
  rstrip_nl (s ++ str_repeat nl k) = rstrip_nl s.
Proof.
  induction s as [|c rest IH].
  - apply rstrip_nl_newlines.
  - change (String c rest ++ str_repeat nl k)%string
      with (String c (rest ++ str_repeat nl k)).
    cbn [rstrip_nl]. now rewrite IH.
Qed.

Lemma rstrip_nl_again (s : string) : rstrip_nl (rstrip_nl s) = rstrip_nl s.
Proof.
  destruct (rstrip_nl_suffix s) as [k Hk].
  rewrite Hk at 2. now rewrite rstrip_nl_absorbs.
Qed.

Lemma emitted_lines_text_paragraph (style : option string) (text : string) (e : option Z) :
  emitted_lines (text_paragraph style text e) =
  if truthy (rstrip_nl text)
  then [(map_get heading_map (default_to "NORMAL_TEXT" style) "" ++ rstrip_nl text)%string]
  else if negb (truthy (map_get heading_map (default_to "NORMAL_TEXT" style) ""))
       then [""] else [].
Proof.
  reflexivity.
Qed.

(** X18. The line of a paragraph does not depend on how many newlines end
    its text: a paragraph whose text is [s] followed by any number of
    newlines emits the same lines as a paragraph of the same style whose
    text is [s] without its trailing newlines. *)
Theorem X18_trailing_newlines_do_not_matter
        (style : option string) (s : string) (k : nat) (e1 e2 : option Z) :
  emitted_lines (text_paragraph style (s ++ str_repeat nl k) e1) =
  emitted_lines (text_paragraph style (rstrip_nl s) e2).
Proof.
  rewrite !emitted_lines_text_paragraph.
  now rewrite rstrip_nl_absorbs, rstrip_nl_again.
Qed.

(** ** [create_document] and [list_documents] *)


(** X20. [list_documents] makes one listing call: its query string is
    the fixed filter on the document type, followed for a non-empty
    search term by the name clause around the term with each single quote
    replaced by a backslash and the quote; its page size is the requested
    maximum when that is at most 100 (zero and negative values included)
    and 100 otherwise.  A failed listing is passed on; no files, or no
    ["files"] key, gives the empty list with a message and no count;
    otherwise one document per file, in the order of the listing, with
    the id, the name, the modified time and the link (the last two empty
    when absent), and their number as count. *)
Theorem X20_list_documents_call_and_result
        (files_list : string -> Z -> remote FileList) (query : string) (max_results : Z) :
  let base := "mimeType='application/vnd.google-apps.document' and trashed=false" in
  let q :=
    match query with
    | EmptyString => base
    | String _ _ => (base ++ " and name contains '" ++ escape_quotes query ++ "'")%string
    end in
  let page_size := if (max_results <=? 100)%Z then max_results else 100%Z in
  fst (list_documents files_list query max_results) = [ListFiles q page_size] /\
  (escape_quotes "" = "" /\
   forall c rest,
     escape_quotes (String c rest) =
     ((if Ascii.eqb c (ascii_of_nat 39)
       then String (ascii_of_nat 92) (String (ascii_of_nat 39) "")
       else String c "") ++ escape_quotes rest)%string) /\
  match files_list q page_size with
  | Failed diagnostic =>
      snd (list_documents files_list query max_results) = Raise (RemoteError diagnostic)
  | Returned results =>
      match files results with
      | None | Some [] =>
          snd (list_documents files_list query max_results) =
          Ok [("documents", JArr []); ("message", JStr "No documents found")]
      | Some found =>
          snd (list_documents files_list query max_results) =
          Ok [("documents",
               JArr (map (fun f =>
                            JObj [("documentId", JStr (file_id f));
                                  ("title", JStr (file_name f));
                                  ("modifiedTime",
                                   JStr (match file_modifiedTime f with
                                         | Some t => t
                                         | None => ""
                                         end));
                                  ("link",
                                   JStr (match file_webViewLink f with
                                         | Some l => l
                                         | None => ""
                                         end))])
                         found));
              ("count", JInt (Z.of_nat (List.length found)))]
      end
  end.
Proof.
  cbv zeta.
  assert (Hpage : Z.min max_results 100 = if (max_results <=? 100)%Z then max_results else 100%Z).
  { destruct (Z.leb_spec max_results 100); [now apply Z.min_l | apply Z.min_r; lia]. }
  assert (Hq : drive_query query =
               match query with
               | EmptyString => "mimeType='application/vnd.google-apps.document' and trashed=false"
               | String _ _ =>
                   ("mimeType='application/vnd.google-apps.document' and trashed=false" ++
                    " and name contains '" ++ escape_quotes query ++ "'")%string
               end).
  { now destruct query. }
  unfold list_documents. cbv zeta. cbn [fst snd]. rewrite Hpage, Hq.
  split; [reflexivity|].
  split.
  { split; [reflexivity|]. intros c rest.
    change (ascii_of_nat 39) with single_quote.
    change (ascii_of_nat 92) with backslash.
    cbn [escape_quotes].
    now destruct (Ascii.eqb c single_quote). }
  destruct (files_list _ _) as [results|diagnostic]; [|reflexivity].
  destruct (files results) as [[|f found]|]; cbn [default_to]; try reflexivity.
  now rewrite length_map.
Qed.

Lemma escape_quotes_starts_unquoted (query rest : string) :
  escape_quotes query <> String single_quote rest.
Proof.
  destruct query as [|c query]; simpl; [discriminate|].
  destruct (Ascii.eqb_spec c single_quote) as [->|Hc]; [discriminate|].
  intros H. injection H as H _. contradiction.
Qed.

Lemma escape_quotes_injective (a b : string) :
  escape_quotes a = escape_quotes b -> a = b.
Proof.
  revert b.
  induction a as [|x a IH]; intros [|y b]; simpl.
  - reflexivity.
  - destruct (Ascii.eqb y single_quote); discriminate.
  - destruct (Ascii.eqb x single_quote); discriminate.
  - destruct (Ascii.eqb_spec x single_quote) as [->|Hx];
      destruct (Ascii.eqb_spec y single_quote) as [->|Hy]; intros H.
    + injection H as H. now rewrite (IH b H).
    + injection H as Hhead Hrest. symmetry in Hrest.
      now apply escape_quotes_starts_unquoted in Hrest.
    + injection H as Hhead Hrest.
      now apply escape_quotes_starts_unquoted in Hrest.
    + injection H as -> H. now rewrite (IH b H).
Qed.

Lemma escape_quotes_follow (query : string) (after_backslash : bool) :
  quotes_follow_backslash after_backslash (escape_quotes query) = true.
Proof.
  revert after_backslash.
  induction query as [|c query IH]; intros after_backslash; [reflexivity|].
  cbn [escape_quotes].
  destruct (Ascii.eqb_spec c single_quote) as [->|Hc].
  - cbn [quotes_follow_backslash]. rewrite IH.
    reflexivity.
  - cbn [quotes_follow_backslash]. rewrite IH.
    destruct (Ascii.eqb_spec c single_quote) as [Heq|_]; [contradiction | reflexivity].
Qed.

Lemma str_append_cancel_l (p x y : string) :
  (p ++ x = p ++ y)%string -> x = y.
Proof.
  induction p as [|c p IH]; simpl; intros H; [exact H|].
  injection H as H. now apply IH.
Qed.

Lemma str_append_cancel_last (c : ascii) (x y : string) :
  (x ++ String c "" = y ++ String c "")%string -> x = y.
Proof.
  revert y.
  induction x as [|a x IH]; intros [|b y]; simpl; intros H.
  - reflexivity.
  - injection H as _ H. destruct y; discriminate.
  - injection H as _ H. destruct x; discriminate.
  - injection H as -> H. now rewrite (IH y H).
Qed.

Lemma str_append_not_shorter (p x : string) (c : ascii) :
  (p ++ String c x)%string <> p.
Proof.
  induction p as [|a p IH]; simpl; [discriminate|].
  intros H. injection H as H. now apply IH.
Qed.

(** X21. The escaping of the search term loses nothing and leaves no bare
    quote: two search terms with the same escaped form, or with the same
    query string, are the same term, and in the escaped form every single
    quote stands right after a backslash. *)
Theorem X21_search_term_escaping :
  (forall a b, escape_quotes a = escape_quotes b -> a = b) /\
  (forall a b, drive_query a = drive_query b -> a = b) /\
  (forall query, quotes_follow_backslash false (escape_quotes query) = true).
Proof.
  split; [exact escape_quotes_injective|].
  split; [|intros query; apply escape_quotes_follow].
  intros a b. unfold drive_query.
  destruct a as [|x a]; destruct b as [|y b]; cbn [truthy].
  - reflexivity.
  - intros H. symmetry in H. now apply str_append_not_shorter in H.
  - intros H. now apply str_append_not_shorter in H.
  - intros H.
    apply str_append_cancel_l in H. apply str_append_cancel_l in H.
    apply str_append_cancel_last in H.
    now apply escape_quotes_injective.
Qed.

(** ** The further properties on the sample inputs *)

(** X2 on the two-tab document. *)
Lemma X2_list_tabs_of_notes_doc :
  run (service_of notes_doc) (list_tabs "doc") =
  ([GetDocument "doc"],
   Ok [("documentTitle", JStr "Plan");
       ("tabs",
        JArr [JObj [("tabId", JStr "t1"); ("title", JStr "Notes");
                    ("index", JInt 0); ("depth", JInt 0)];
              JObj [("tabId", JStr "t2"); ("title", JStr "Notes");
                    ("index", JInt 0); ("depth", JInt 0)]]);
       ("count", JInt 2)]).
Proof.
  exact (X2_list_tabs_lists_every_tab (service_of notes_doc) "doc" (doc := notes_doc) eq_refl).
Defined.

(** X3 on the second tab of the two-tab document. *)
Lemma X3_second_tab_resolves_by_identifier :
  exists body,
    _resolve_tab str_lower notes_doc "t2" "" = Ok (body, "t2") /\
    body = body_without_end_index.
Proof.
  assert (Hin : In (tab_entry 0 notes_second) (_flatten_tabs (tabs notes_doc) 0))
    by (right; left; reflexivity).
  assert (Hid : e_tabId (tab_entry 0 notes_second) <> "") by discriminate.
  destruct (X3_listed_identifier_resolves str_lower notes_doc (tab_entry 0 notes_second) Hin Hid)
    as [body [Hresolve Hbody]].
  exists body. split; [exact Hresolve|].
  apply Hbody. repeat constructor; simpl; intuition discriminate.
Defined.

(** X4 on the first tab of the two-tab document, asked for in capitals. *)
Lemma X4_capitals_resolve_to_a_notes_tab :
  exists found,
    In found (_flatten_tabs (tabs notes_doc) 0) /\
    str_lower (e_title found) = str_lower "NOTES" /\
    _resolve_tab str_lower notes_doc "" "NOTES" = Ok (tab_body (e_tab found), e_tabId found).
Proof.
  assert (Hin : In (tab_entry 0 notes_first) (_flatten_tabs (tabs notes_doc) 0))
    by (left; reflexivity).
  assert (Htitle : "NOTES" <> "") by discriminate.
  exact (X4_listed_title_resolves str_lower notes_doc (tab_entry 0 notes_first) Hin Htitle eq_refl).
Defined.

(** X5 on the two-tab document and an identifier no tab has. *)
Lemma X5_unknown_identifier_matches_nothing :
  TabNotFound "zzz" "" = TabNotFound "zzz" "" /\
  tabs notes_doc <> [] /\
  ("zzz" <> "" \/ "" <> "") /\
  entry_matches str_lower "zzz" "" (tab_entry 0 notes_second) = false.
Proof.
  destruct (X5_resolver_raises_only_when_nothing_matches
              str_lower notes_doc "zzz" "" (e := TabNotFound "zzz" "") eq_refl)
    as [Herror [Htabs [Hasked Hnone]]].
  split; [exact Herror|]. split; [exact Htabs|]. split; [exact Hasked|].
  apply Hnone. right. left. reflexivity.
Defined.

(** X6 on the two-tab document. *)
Lemma X6_append_goes_to_first_tab :
  fst (run (service_of notes_doc) (append_text str_lower "doc" "hi" "" "")) =
  [GetDocument "doc";
   BatchUpdate "doc"
     [[("insertText",
        JObj [("location", JObj [("index", JInt 49); ("tabId", JStr "t1")]);
              ("text", JStr (nl ++ "hi")%string)])]]].
Proof.
  destruct (X6_append_text_default_target str_lower (service_of notes_doc) "doc" "hi"
                                          (doc := notes_doc) eq_refl) as [Hfirst _].
  exact (Hfirst notes_first [notes_second] eq_refl).
Defined.

(** X9 on a service whose fetch fails. *)
Lemma X9_quota_error_is_passed_on :
  run unreachable_service (append_text str_lower "doc" "hi" "t1" "") =
  ([GetDocument "doc"], Raise (RemoteError "quota exceeded")).
Proof.
  destruct (X9_failed_fetch_is_passed_on str_lower unreachable_service "doc"
                                         (diagnostic := "quota exceeded") eq_refl)
    as [_ [Happend _]].
  exact (Happend "hi" "t1" "").
Defined.

(** X10 on an accepted insertion. *)
Lemma X10_accepted_insertion_returns :
  exists answer,
    snd (run (service_of notes_doc) (insert_text str_lower "doc" "hi" 1 "t1" "")) = Ok answer.
Proof.
  destruct (X10_outcome_follows_the_edit
              str_lower (service_of notes_doc) "doc" "t1" ""
              [insertText_request [("index", JInt 1); ("tabId", JStr "t1")] "hi"])
    as [_ [Hinsert _]].
  apply (Hinsert "hi" 1%Z). left. reflexivity.
Defined.

(** X11 on the tab that ends at index 50. *)
Lemma X11_report_counts_the_newline :
  snd (run (service_of notes_doc) (append_text str_lower "doc" "hi" "t1" "")) =
  Ok [("status", JStr "ok"); ("appended_chars", JInt 3);
      ("at_index", JInt 49); ("tabId", JStr "t1")].
Proof.
  exact (X11_append_text_report str_lower (service_of notes_doc) "doc" "hi" "t1" ""
                                (doc := notes_doc) (body := body_ending_at_50)
                                (resolved_tab_id := "t1")
                                (response := mkBatchUpdateResponse None None)
                                eq_refl eq_refl eq_refl).
Defined.

(** X12 on the second tab of the two-tab document. *)
Lemma X12_read_second_tab :
  run (service_of notes_doc) (read_document str_lower "doc" "t2" "") =
  ([GetDocument "doc"],
   Ok ("# Plan " ++ em_dash ++ " [Notes]" ++ nl ++ nl ++ "text")%string).
Proof.
  assert (Hid : "t2" <> "") by discriminate.
  exact (X12_read_one_tab_by_identifier str_lower (service_of notes_doc) "doc"
                                        (doc := notes_doc) (entry := tab_entry 0 notes_second)
                                        eq_refl Hid eq_refl).
Defined.

(** X13 on a service that counts three replacements. *)
Lemma X13_three_occurrences_reported :
  snd (run counting_service (replace_text str_lower "doc" "a" "b" true "t1" "")) =
  Ok [("status", JStr "ok"); ("occurrences_replaced", JInt 3); ("tabId", JStr "t1")].
Proof.
  assert (Hid : "t1" <> "") by discriminate.
  destruct (X13_replace_text_report
              str_lower counting_service "doc" "a" "b" true
              (mkBatchUpdateResponse
                 (Some [mkReply (Some (mkReplaceAllTextReply (Some 3%Z)))]) (Some "doc")))
    as [Hby_id _].
  exact (Hby_id "t1" "" Hid eq_refl).
Defined.

(** X14 on the two-tab document, asked for by title. *)
Lemma X14_insert_by_title_is_scoped :
  fst (run (service_of notes_doc) (insert_text str_lower "doc" "hi" 1 "" "notes")) =
  [GetDocument "doc";
   BatchUpdate "doc"
     [[("insertText",
        JObj [("location", JObj [("index", JInt 1); ("tabId", JStr "t1")]);
              ("text", JStr "hi")])]]].
Proof.
  assert (Htitle : "notes" <> "") by discriminate.
  destruct (X14_title_is_resolved_to_the_scope
              str_lower (service_of notes_doc) "doc" (doc := notes_doc)
              (body := body_ending_at_50) (resolved_tab_id := "t1")
              eq_refl Htitle eq_refl) as [Hinsert _].
  exact (Hinsert "hi" 1%Z).
Defined.

(** X15 on a batch rewritten for ["tab123"] and rewritten again for
    ["other"]. *)
Lemma X15_first_scope_stays :
  scope_requests "other"
    [[("insertText",
       JObj [("location", JObj [("index", JInt 1); ("tabId", JStr "tab123")]);
             ("text", JStr "x")])]]
  = Ok [[("insertText",
          JObj [("location", JObj [("index", JInt 1); ("tabId", JStr "tab123")]);
                ("text", JStr "x")])]].
Proof.
  assert (Hid : "tab123" <> "") by discriminate.
  exact (X15_second_rewrite_changes_nothing "other" [unscoped_insert] Hid eq_refl).
Defined.

(** X16 on a request whose location is a number. *)
Lemma X16_number_location_sends_nothing :
  scope_requests "tab123" [number_location] = Raise TypeError /\
  run (service_of notes_doc) (batch_update str_lower "doc" [number_location] "tab123" "") =
  ([], Raise TypeError).
Proof.
  assert (Hid : "tab123" <> "") by discriminate.
  destruct (X16_rewrite_raises_exactly_on_unwalkable_fields str_lower [number_location] Hid)
    as [_ [Hraises Hnothing]].
  split.
  - apply Hraises. reflexivity.
  - exact (Hnothing eq_refl (service_of notes_doc) "doc" "").
Defined.

(** X17 on a table between two paragraphs. *)
Lemma X17_table_is_invisible :
  _extract_text_from_body
    (mkBody ([text_paragraph None ("a" ++ nl) None] ++
             mkStructuralElement None (Some 9%Z) :: [text_paragraph None ("b" ++ nl) None])) =
  _extract_text_from_body
    (mkBody ([text_paragraph None ("a" ++ nl) None] ++ [text_paragraph None ("b" ++ nl) None])).
Proof.
  destruct X17_rendering_of_parts as [_ Hremove].
  apply Hremove. reflexivity.
Defined.


(** X20 on a listing of two files, asked for with a maximum of 250. *)
Lemma X20_page_size_is_capped :
  fst (list_documents two_files "it's" 250) =
  [ListFiles
      ("mimeType='application/vnd.google-apps.document' and trashed=false" ++
       " and name contains 'it" ++
       String (ascii_of_nat 92) (String (ascii_of_nat 39) "s") ++ "'")
      100] /\
  snd (list_documents two_files "it's" 250) =
   Ok [("documents",
        JArr [JObj [("documentId", JStr "f1"); ("title", JStr "Plan");
                    ("modifiedTime", JStr "2025-01-02"); ("link", JStr "")];
              JObj [("documentId", JStr "f2"); ("title", JStr "Notes");
                    ("modifiedTime", JStr ""); ("link", JStr "https://example.org/f2")]]);
       ("count", JInt 2)].
Proof.
  destruct (X20_list_documents_call_and_result two_files "it's" 250) as [Hcall [_ Hresult]].
  split; [exact Hcall | exact Hresult].
Defined.

(** X21 on a search term with a quote. *)
Lemma X21_quoted_term_is_recovered :
  "it's" = "it's" /\ quotes_follow_backslash false (escape_quotes "it's") = true.
Proof.
  destruct X21_search_term_escaping as [Hinjective [_ Hfollow]].
  split; [exact (Hinjective "it's" "it's" eq_refl) | exact (Hfollow "it's")].
Defined.
